(** * AdvancedFreestyleBot: decision controller, timed control sequences
      and trajectory sampling

    Shallow embedding of [src/bot.py].  Python floats are read as exact
    rationals ([Q]); every threshold of the program is a comparison or a
    sum, which [Q] carries without rounding.  The collaborators imported
    from [util/] and from the rlbot framework are written out where the
    decision logic reads them and kept abstract where it does not. *)

From Stdlib Require Import QArith Qabs Qminmax Qround Bool Arith List String Sorted Lia Lqa.
Import ListNotations.
Local Open Scope Q_scope.

(** ** Numbers *)

(** Python's [a < b] on numbers. *)
Definition Qltb (a b : Q) : bool := negb (Qle_bool b a).

(** Python's built-in [min(a, b)]: the first argument unless the second
    is strictly smaller. *)
Definition py_min (a b : Q) : Q := if Qltb b a then b else a.

(** ** Framework data (rlbot) *)

Record Vec3 := { x : Q; y : Q; z : Q }.

Definition Vec3_sub (a b : Vec3) : Vec3 :=
  {| x := x a - x b; y := y a - y b; z := z a - z b |}.

Record Physics := { location : Vec3; velocity : Vec3 }.

(** A car of [packet.game_cars]; its [boost] shares a name with the
    controller's boost button, hence the module. *)
Module PlayerInfo.
Record t := {
  physics : Physics;
  boost : Q;
  is_super_sonic : bool;
  has_wheel_contact : bool
}.
End PlayerInfo.

Record GameTickPacket := {
  game_cars : nat -> PlayerInfo.t;
  game_ball : Physics;
  seconds_elapsed : Q
}.

(** One predicted ball state. *)
Record Slice := { game_seconds : Q; slice_physics : Physics }.

Definition BallPrediction := list Slice.

Record SimpleControllerState := {
  steer : Q;
  throttle : Q;
  pitch : Q;
  yaw : Q;
  roll : Q;
  jump : bool;
  boost : bool
}.

(** Keyword arguments of the [SimpleControllerState(...)] constructor;
    every field that is not named keeps its neutral default. *)
Inductive kwarg :=
| Steer (v : Q) | Throttle (v : Q) | Pitch (v : Q) | Yaw (v : Q) | Roll (v : Q)
| Jump (b : bool) | Boost (b : bool).

Definition neutral : SimpleControllerState :=
  {| steer := 0; throttle := 0; pitch := 0; yaw := 0; roll := 0;
     jump := false; boost := false |}.

Definition set_field (c : SimpleControllerState) (k : kwarg) : SimpleControllerState :=
  match k with
  | Steer v => {| steer := v; throttle := throttle c; pitch := pitch c; yaw := yaw c;
                  roll := roll c; jump := jump c; boost := boost c |}
  | Throttle v => {| steer := steer c; throttle := v; pitch := pitch c; yaw := yaw c;
                     roll := roll c; jump := jump c; boost := boost c |}
  | Pitch v => {| steer := steer c; throttle := throttle c; pitch := v; yaw := yaw c;
                  roll := roll c; jump := jump c; boost := boost c |}
  | Yaw v => {| steer := steer c; throttle := throttle c; pitch := pitch c; yaw := v;
                roll := roll c; jump := jump c; boost := boost c |}
  | Roll v => {| steer := steer c; throttle := throttle c; pitch := pitch c; yaw := yaw c;
                 roll := v; jump := jump c; boost := boost c |}
  | Jump b => {| steer := steer c; throttle := throttle c; pitch := pitch c; yaw := yaw c;
                 roll := roll c; jump := b; boost := boost c |}
  | Boost b => {| steer := steer c; throttle := throttle c; pitch := pitch c; yaw := yaw c;
                  roll := roll c; jump := jump c; boost := b |}
  end.

Definition controller_state (kw : list kwarg) : SimpleControllerState :=
  fold_left set_field kw neutral.

(** The entries of rlbot's [QuickChatSelection] that matter here.  The enum
    has no [Reactions_NoProblem]; its entry of that wording is
    [Apologies_NoProblem]. *)
Inductive QuickChatSelection :=
| Reactions_Calculated | Reactions_Siiiick | Reactions_Wow
| Reactions_OMG | Information_IGotIt | Apologies_NoProblem.

(** What a call does: it returns a value or it raises. *)
Inductive exn := IndexError | AttributeError.

Inductive outcome (A : Type) :=
| Returns (a : A)
| Raises (e : exn).
Arguments Returns {A} a.
Arguments Raises {A} e.

(** ** util.sequence: the timed control sequence *)

Record ControlStep := control_step {
  duration : Q;
  controls : SimpleControllerState
}.

(** Modelled from the spec: [util/sequence.py] ([Sequence], [ControlStep]) is
    not among the sources.  Section 3 gives a sequence its ordered steps,
    the elapsed time since its start and a done flag; the start clock is
    what lets the elapsed time be recomputed from the caller's clock. *)
Record Sequence := {
  steps : list ControlStep;
  start_time : option Q;
  elapsed_time : Q;
  done : bool
}.

(** Modelled from the spec: the [Pending] state of section 4.2, just
    constructed, zero elapsed time. *)
Definition new_sequence (l : list ControlStep) : Sequence :=
  {| steps := l; start_time := None; elapsed_time := 0; done := false |}.

(** Modelled from the spec: the total planned duration, the sum of all step
    durations. *)
Definition total_duration (l : list ControlStep) : Q :=
  fold_right (fun s acc => duration s + acc) 0 l.

(** Modelled from the spec: section 4.2, the active step is the one of
    smallest index whose cumulative duration, itself included, exceeds the
    elapsed time; none when the elapsed time is past the whole plan. *)
Fixpoint active_step (l : list ControlStep) (elapsed cumulative : Q)
  : option SimpleControllerState :=
  match l with
  | [] => None
  | s :: rest =>
      let upto := cumulative + duration s in
      if Qltb elapsed upto then Some (controls s)
      else active_step rest elapsed upto
  end.

(** Modelled from the spec: the elapsed time a call at clock [now] sees. *)
Definition elapsed_at (seq : Sequence) (now : Q) : Q :=
  now - match start_time seq with Some s => s | None => now end.

(** Modelled from the spec: [Sequence.tick], the [advance] of section 4.2.
    Done is terminal; otherwise the elapsed time is recomputed from the
    packet's clock, and the call yields the active step's controls or, when
    there is none, moves to Done and yields nothing. *)
Definition tick (seq : Sequence) (packet : GameTickPacket)
  : Sequence * option SimpleControllerState :=
  if done seq then (seq, None)
  else
    let now := seconds_elapsed packet in
    let start := match start_time seq with Some s => s | None => now end in
    let elapsed := elapsed_at seq now in
    match active_step (steps seq) elapsed 0 with
    | Some c =>
        ({| steps := steps seq; start_time := Some start;
            elapsed_time := elapsed; done := false |}, Some c)
    | None =>
        ({| steps := steps seq; start_time := Some start;
            elapsed_time := elapsed; done := true |}, None)
    end.

(** A sequence driven over successive packets, with what each call yields. *)
Fixpoint run (seq : Sequence) (packets : list GameTickPacket)
  : Sequence * list (option SimpleControllerState) :=
  match packets with
  | [] => (seq, [])
  | p :: rest =>
      let (seq', out) := tick seq p in
      let (seq'', outs) := run seq' rest in
      (seq'', out :: outs)
  end.

(** ** util.ball_prediction_analysis: the trajectory sampler *)

(** The order of an ascending prediction: each slice is stamped no later
    than the next. *)
Definition time_le (a b : Slice) : Prop := game_seconds a <= game_seconds b.

Definition last_slice (slices : BallPrediction) : option Slice :=
  nth_error slices (Nat.pred (List.length slices)).

(** Modelled from the spec: [util/ball_prediction_analysis.py] is not among
    the sources.  Section 4.1: nothing when the sequence is empty or the
    target time is past the last slice, otherwise a search for the closest
    sample at or after the target time. *)
Definition find_slice_at_time (slices : BallPrediction) (game_time : Q)
  : option Slice :=
  match last_slice slices with
  | None => None
  | Some l =>
      if Qltb (game_seconds l) game_time then None
      else find (fun s => Qle_bool game_time (game_seconds s)) slices
  end.

(** ** bot.py: the decision controller *)

(** The fields [__init__] sets; [quick_chats] records what
    [send_quick_chat] was asked to send, oldest first.  The boost pad tracker
    and the renderer are written to but never read by the decision logic, and
    are left out. *)
Record AdvancedFreestyleBot := {
  index : nat;
  active_sequence : option Sequence;
  last_aerial_time : Q;
  aerial_cooldown : Q;
  tricks_performed : nat;
  last_trick_type : option string;
  quick_chats : list QuickChatSelection
}.

Definition init (i : nat) : AdvancedFreestyleBot :=
  {| index := i; active_sequence := None; last_aerial_time := 0;
     aerial_cooldown := 3.0; tricks_performed := 0%nat;
     last_trick_type := None; quick_chats := [] |}.

Definition set_active_sequence (self : AdvancedFreestyleBot) (s : option Sequence) :=
  {| index := index self; active_sequence := s;
     last_aerial_time := last_aerial_time self;
     aerial_cooldown := aerial_cooldown self;
     tricks_performed := tricks_performed self;
     last_trick_type := last_trick_type self;
     quick_chats := quick_chats self |}.

Definition set_last_aerial_time (self : AdvancedFreestyleBot) (t : Q) :=
  {| index := index self; active_sequence := active_sequence self;
     last_aerial_time := t;
     aerial_cooldown := aerial_cooldown self;
     tricks_performed := tricks_performed self;
     last_trick_type := last_trick_type self;
     quick_chats := quick_chats self |}.

(** [self.last_trick_type = chosen_trick; self.tricks_performed += 1]. *)
Definition record_trick (self : AdvancedFreestyleBot) (chosen : string) :=
  {| index := index self; active_sequence := active_sequence self;
     last_aerial_time := last_aerial_time self;
     aerial_cooldown := aerial_cooldown self;
     tricks_performed := S (tricks_performed self);
     last_trick_type := Some chosen;
     quick_chats := quick_chats self |}.

Definition send_quick_chat (self : AdvancedFreestyleBot) (q : QuickChatSelection) :=
  {| index := index self; active_sequence := active_sequence self;
     last_aerial_time := last_aerial_time self;
     aerial_cooldown := aerial_cooldown self;
     tricks_performed := tricks_performed self;
     last_trick_type := last_trick_type self;
     quick_chats := quick_chats self ++ [q] |}.

(** [self.active_sequence = Sequence([...]); return self.active_sequence.tick(packet)]. *)
Definition start_sequence (self : AdvancedFreestyleBot) (packet : GameTickPacket)
    (l : list ControlStep) : AdvancedFreestyleBot * option SimpleControllerState :=
  let (seq, out) := tick (new_sequence l) packet in
  (set_active_sequence self (Some seq), out).

Definition check_aerial_conditions (self : AdvancedFreestyleBot)
    (my_car : PlayerInfo.t) (ball_location : Vec3)
    (ball_height distance_to_ball time_since_aerial : Q) : bool :=
  Qltb 350 ball_height &&
  (Qltb 400 distance_to_ball && Qltb distance_to_ball 2200) &&
  Qltb 35 (PlayerInfo.boost my_car) &&
  Qltb (aerial_cooldown self) time_since_aerial &&
  negb (PlayerInfo.is_super_sonic my_car) &&
  PlayerInfo.has_wheel_contact my_car.

(** The six conditions of [check_aerial_conditions], in the order the
    source tests them. *)
Definition aerial_conditions (self : AdvancedFreestyleBot)
    (my_car : PlayerInfo.t) (ball_height distance_to_ball time_since_aerial : Q)
  : list bool :=
  [ Qltb 350 ball_height;
    Qltb 400 distance_to_ball && Qltb distance_to_ball 2200;
    Qltb 35 (PlayerInfo.boost my_car);
    Qltb (aerial_cooldown self) time_since_aerial;
    negb (PlayerInfo.is_super_sonic my_car);
    PlayerInfo.has_wheel_contact my_car ].

(** The time offset [find_aerial_target] looks ahead by. *)
Definition lookahead (distance : Q) : Q :=
  let lookahead := 0.5 + distance / 1500.0 in
  py_min lookahead 2.5.

Definition find_aerial_target (ball_prediction : BallPrediction)
    (current_time distance : Q) : option Vec3 :=
  match find_slice_at_time ball_prediction (current_time + lookahead distance) with
  | Some target_slice =>
      let target_location := location (slice_physics target_slice) in
      if Qltb 400 (z target_location) then Some target_location else None
  | None => None
  end.

(** [x in tricks]. *)
Definition contains (t : string) (tricks : list string) : bool :=
  existsb (String.eqb t) tricks.

(** [tricks.remove(x)]: the first occurrence goes, later ones stay. *)
Fixpoint list_remove (t : string) (tricks : list string) : list string :=
  match tricks with
  | [] => []
  | u :: rest => if String.eqb t u then rest else u :: list_remove t rest
  end.

(** [random.choice(tricks)] under the draw [rnd]: an element at a position
    below the length, [IndexError] on the empty list. *)
Definition random_choice (rnd : nat) (tricks : list string) : outcome string :=
  match nth_error tricks (Nat.modulo rnd (List.length tricks)) with
  | Some t => Returns t
  | None => Raises IndexError
  end.

(** The list [choose_freestyle_aerial] builds from the boost tiers. *)
Definition tier_union (boost_amount : Q) : list string :=
  let tricks := [] in
  let tricks :=
    if Qltb 60 boost_amount
    then tricks ++ ["tornado"; "ceiling_shuffle"; "kuxir_twist"; "flip_reset"; "psycho"]%string
    else tricks in
  let tricks :=
    if Qltb 40 boost_amount
    then tricks ++ ["air_roll_shot"; "musty_flick"; "flip_reset"]%string
    else tricks in
  tricks ++ ["basic_aerial"; "spinning_aerial"]%string.

(** The candidate list of [choose_freestyle_aerial], up to the draw: the
    tiers, with the last trick removed when it is among them. *)
Definition candidate_tricks (last : option string) (boost_amount : Q) : list string :=
  let tricks := tier_union boost_amount in
  match last with
  | Some t => if contains t tricks then list_remove t tricks else tricks
  | None => tricks
  end.

(** *** The step lists of the behaviours *)

Definition tornado_steps : list ControlStep := [
  control_step 0.1 (controller_state [Jump true; Boost true]);
  control_step 0.05 (controller_state [Jump false; Boost true]);
  control_step 0.1 (controller_state [Jump true; Boost true; Pitch (-0.4)]);
  control_step 0.15 (controller_state [Boost true; Pitch (-0.3); Roll 1.0; Yaw 1.0]);
  control_step 0.15 (controller_state [Boost true; Pitch (-0.2); Roll 1.0; Yaw (-1.0)]);
  control_step 0.15 (controller_state [Boost true; Pitch (-0.3); Roll 1.0; Yaw 1.0]);
  control_step 0.15 (controller_state [Boost true; Pitch (-0.2); Roll 1.0; Yaw (-1.0)]);
  control_step 0.2 (controller_state [Boost true; Pitch (-0.9); Roll 0.5]);
  control_step 0.4 (controller_state [Pitch 1.0; Roll 0])
].

Definition kuxir_twist_steps : list ControlStep := [
  control_step 0.1 (controller_state [Jump true; Boost true]);
  control_step 0.05 (controller_state [Jump false; Boost true]);
  control_step 0.1 (controller_state [Jump true; Boost true; Pitch 1.0]);
  control_step 0.2 (controller_state [Boost true; Pitch 0.5; Roll (-1.0); Yaw 0.8]);
  control_step 0.2 (controller_state [Boost true; Pitch 0.3; Roll (-1.0); Yaw (-0.8)]);
  control_step 0.2 (controller_state [Boost true; Pitch 0.5; Roll (-1.0); Yaw 0.8]);
  control_step 0.2 (controller_state [Boost true; Pitch (-0.5); Roll 0.5]);
  control_step 0.4 (controller_state [Pitch 1.0; Roll 0])
].

Definition air_roll_shot_steps : list ControlStep := [
  control_step 0.1 (controller_state [Jump true; Boost true]);
  control_step 0.05 (controller_state [Jump false; Boost true]);
  control_step 0.1 (controller_state [Jump true; Boost true; Pitch (-0.5)]);
  control_step 0.25 (controller_state [Boost true; Pitch (-0.4); Roll 1.0]);
  control_step 0.25 (controller_state [Boost true; Pitch (-0.4); Roll 1.0]);
  control_step 0.25 (controller_state [Boost true; Pitch (-0.5); Roll 1.0]);
  control_step 0.15 (controller_state [Boost true; Pitch (-1.0); Roll 0]);
  control_step 0.4 (controller_state [Pitch 1.0])
].

Definition ceiling_shuffle_steps : list ControlStep := [
  control_step 0.1 (controller_state [Jump true; Boost true]);
  control_step 0.05 (controller_state [Jump false; Boost true]);
  control_step 0.15 (controller_state [Jump true; Boost true; Pitch 0.5; Roll (-1.0)]);
  control_step 0.15 (controller_state [Boost true; Pitch (-0.2); Roll 1.0; Yaw 0.5]);
  control_step 0.15 (controller_state [Boost true; Pitch (-0.2); Roll (-1.0); Yaw (-0.5)]);
  control_step 0.15 (controller_state [Boost true; Pitch (-0.3); Roll 1.0; Yaw 0.5]);
  control_step 0.15 (controller_state [Boost true; Pitch (-0.3); Roll (-1.0); Yaw (-0.5)]);
  control_step 0.2 (controller_state [Boost true; Pitch (-0.8)]);
  control_step 0.4 (controller_state [Pitch 1.0])
].

Definition spinning_aerial_steps : list ControlStep := [
  control_step 0.1 (controller_state [Jump true; Boost true]);
  control_step 0.05 (controller_state [Jump false; Boost true]);
  control_step 0.1 (controller_state [Jump true; Boost true; Pitch (-0.4)]);
  control_step 0.3 (controller_state [Boost true; Pitch (-0.3); Roll (-1.0)]);
  control_step 0.3 (controller_state [Boost true; Pitch (-0.4); Roll (-1.0)]);
  control_step 0.2 (controller_state [Boost true; Pitch (-0.8)]);
  control_step 0.4 (controller_state [Pitch 1.0])
].

Definition basic_freestyle_aerial_steps : list ControlStep := [
  control_step 0.1 (controller_state [Jump true; Boost true]);
  control_step 0.05 (controller_state [Jump false; Boost true]);
  control_step 0.1 (controller_state [Jump true; Boost true; Pitch (-0.5)]);
  control_step 0.2 (controller_state [Boost true; Pitch (-0.4); Roll (-1.0); Yaw 0.3]);
  control_step 0.2 (controller_state [Boost true; Pitch (-0.5); Roll 1.0; Yaw (-0.3)]);
  control_step 0.25 (controller_state [Boost true; Pitch (-0.7)]);
  control_step 0.4 (controller_state [Pitch 1.0])
].

Definition psycho_steps : list ControlStep := [
  control_step 0.1 (controller_state [Jump true; Boost true; Pitch 0.3]);
  control_step 0.05 (controller_state [Jump false; Boost true]);
  control_step 0.1 (controller_state [Jump true; Boost true; Pitch 0.8]);
  control_step 0.2 (controller_state [Boost true; Pitch 0.6; Roll 1.0; Yaw 0.5]);
  control_step 0.2 (controller_state [Boost true; Pitch 0.4; Roll 1.0; Yaw (-0.5)]);
  control_step 0.2 (controller_state [Boost true; Pitch 0.5; Roll 1.0; Yaw 0.5]);
  control_step 0.2 (controller_state [Boost true; Pitch 0.3; Roll 1.0; Yaw (-0.5)]);
  control_step 0.15 (controller_state [Boost true; Pitch (-0.5); Roll 1.0]);
  control_step 0.15 (controller_state [Boost true; Pitch (-0.8); Roll 0.5]);
  control_step 0.5 (controller_state [Pitch 1.0; Roll 0])
].

Definition musty_flick_steps : list ControlStep := [
  control_step 0.1 (controller_state [Jump true; Boost true]);
  control_step 0.05 (controller_state [Jump false; Boost true]);
  control_step 0.1 (controller_state [Jump true; Boost true; Pitch (-0.3)]);
  control_step 0.15 (controller_state [Boost true; Pitch 0.6]);
  control_step 0.15 (controller_state [Boost true; Pitch 0.8]);
  control_step 0.15 (controller_state [Boost true; Pitch 1.0]);
  control_step 0.1 (controller_state [Jump true; Pitch 1.0; Boost false]);
  control_step 0.2 (controller_state [Pitch 1.0; Boost false]);
  control_step 0.5 (controller_state [Pitch (-1.0); Roll 0]);
  control_step 0.3 (controller_state [Pitch 1.0; Roll 0])
].

Definition flip_reset_steps : list ControlStep := [
  control_step 0.1 (controller_state [Jump true; Boost true]);
  control_step 0.05 (controller_state [Jump false; Boost true]);
  control_step 0.1 (controller_state [Jump true; Boost true; Pitch (-0.4)]);
  control_step 0.2 (controller_state [Boost true; Pitch (-0.3)]);
  control_step 0.15 (controller_state [Boost true; Pitch 0.6; Roll 0.3]);
  control_step 0.15 (controller_state [Boost true; Pitch 0.8; Roll (-0.3)]);
  control_step 0.15 (controller_state [Boost true; Pitch 0.9; Roll 0]);
  control_step 0.1 (controller_state [Boost true; Pitch (-0.3)]);
  control_step 0.05 (controller_state [Jump true; Boost true]);
  control_step 0.2 (controller_state [Jump true; Pitch (-1.0); Yaw 0.4; Boost true]);
  control_step 0.5 (controller_state [Pitch 1.0])
].

Definition diagonal_flip_steps : list ControlStep := [
  control_step 0.05 (controller_state [Jump true]);
  control_step 0.05 (controller_state [Jump false]);
  control_step 0.2 (controller_state [Jump true; Pitch (-1); Yaw 0.4]);
  control_step 0.8 (controller_state [])
].

Definition speed_flip_steps : list ControlStep := [
  control_step 0.05 (controller_state [Jump true; Boost true; Pitch 0.2]);
  control_step 0.05 (controller_state [Jump false; Boost true]);
  control_step 0.12 (controller_state [Jump true; Pitch (-1.0); Yaw (-0.25); Boost true]);
  control_step 0.18 (controller_state [Pitch 1.0; Yaw (-0.15); Roll (-0.4); Boost true]);
  control_step 0.15 (controller_state [Pitch 0.3; Roll (-0.5); Boost true]);
  control_step 0.3 (controller_state [Boost true; Throttle 1.0])
].

(** *** The behaviours: a quick chat, a fresh sequence, its first tick *)

Definition tornado_aerial (self : AdvancedFreestyleBot) (packet : GameTickPacket) (target : Vec3) :=
  start_sequence (send_quick_chat self Reactions_Calculated) packet tornado_steps.

Definition kuxir_twist (self : AdvancedFreestyleBot) (packet : GameTickPacket) (target : Vec3) :=
  start_sequence (send_quick_chat self Reactions_Siiiick) packet kuxir_twist_steps.

Definition air_roll_shot (self : AdvancedFreestyleBot) (packet : GameTickPacket) (target : Vec3) :=
  start_sequence (send_quick_chat self Reactions_Wow) packet air_roll_shot_steps.

(** [QuickChatSelection.<name>] for the names [bot.py] asks for, and for the
    enum's own [Apologies_NoProblem]: the entry of that name, [AttributeError]
    when the enum has none, as for [Reactions_NoProblem]. *)
Definition QuickChatSelection_attr (name : string) : outcome QuickChatSelection :=
  if String.eqb name "Reactions_Calculated" then Returns Reactions_Calculated
  else if String.eqb name "Reactions_Siiiick" then Returns Reactions_Siiiick
  else if String.eqb name "Reactions_Wow" then Returns Reactions_Wow
  else if String.eqb name "Reactions_OMG" then Returns Reactions_OMG
  else if String.eqb name "Information_IGotIt" then Returns Information_IGotIt
  else if String.eqb name "Apologies_NoProblem" then Returns Apologies_NoProblem
  else Raises AttributeError.

(** [ceiling_shuffle] asks for [QuickChatSelection.Reactions_NoProblem]: the
    lookup raises before the chat is sent and before the sequence is built. *)
Definition ceiling_shuffle (self : AdvancedFreestyleBot) (packet : GameTickPacket) (target : Vec3)
  : outcome (AdvancedFreestyleBot * option SimpleControllerState) :=
  match QuickChatSelection_attr "Reactions_NoProblem" with
  | Raises e => Raises e
  | Returns quick_chat =>
      Returns (start_sequence (send_quick_chat self quick_chat) packet
                 ceiling_shuffle_steps)
  end.

Definition spinning_aerial (self : AdvancedFreestyleBot) (packet : GameTickPacket) (target : Vec3) :=
  start_sequence (send_quick_chat self Reactions_OMG) packet spinning_aerial_steps.

Definition basic_freestyle_aerial (self : AdvancedFreestyleBot) (packet : GameTickPacket) (target : Vec3) :=
  start_sequence (send_quick_chat self Information_IGotIt) packet basic_freestyle_aerial_steps.

Definition psycho (self : AdvancedFreestyleBot) (packet : GameTickPacket) (target : Vec3) :=
  start_sequence (send_quick_chat self Reactions_Siiiick) packet psycho_steps.

Definition musty_flick (self : AdvancedFreestyleBot) (packet : GameTickPacket) (target : Vec3) :=
  start_sequence (send_quick_chat self Reactions_Wow) packet musty_flick_steps.

Definition flip_reset (self : AdvancedFreestyleBot) (packet : GameTickPacket) (target : Vec3) :=
  start_sequence (send_quick_chat self Reactions_Calculated) packet flip_reset_steps.

Definition diagonal_flip (self : AdvancedFreestyleBot) (packet : GameTickPacket) :=
  start_sequence self packet diagonal_flip_steps.

Definition speed_flip (self : AdvancedFreestyleBot) (packet : GameTickPacket) :=
  start_sequence (send_quick_chat self Reactions_Siiiick) packet speed_flip_steps.

(** The trick [choose_freestyle_aerial] draws, before it is recorded. *)
Definition chosen_trick (self : AdvancedFreestyleBot) (boost_amount : Q) (rnd : nat)
  : outcome string :=
  random_choice rnd (candidate_tricks (last_trick_type self) boost_amount).

Definition choose_freestyle_aerial (self : AdvancedFreestyleBot)
    (packet : GameTickPacket) (target_location : Vec3) (boost_amount : Q)
    (rnd : nat) : outcome (AdvancedFreestyleBot * option SimpleControllerState) :=
  match chosen_trick self boost_amount rnd with
  | Raises e => Raises e
  | Returns chosen_trick =>
      let self := record_trick self chosen_trick in
      if String.eqb chosen_trick "tornado" then Returns (tornado_aerial self packet target_location)
      else if String.eqb chosen_trick "kuxir_twist" then Returns (kuxir_twist self packet target_location)
      else if String.eqb chosen_trick "air_roll_shot" then Returns (air_roll_shot self packet target_location)
      else if String.eqb chosen_trick "ceiling_shuffle" then ceiling_shuffle self packet target_location
      else if String.eqb chosen_trick "spinning_aerial" then Returns (spinning_aerial self packet target_location)
      else if String.eqb chosen_trick "psycho" then Returns (psycho self packet target_location)
      else if String.eqb chosen_trick "musty_flick" then Returns (musty_flick self packet target_location)
      else if String.eqb chosen_trick "flip_reset" then Returns (flip_reset self packet target_location)
      else Returns (basic_freestyle_aerial self packet target_location)
  end.

Section Collaborators.

(** [Vec3.length] of [util/vec.py], a square root, and [steer_toward_target]
    of [util/drive.py]: neither is among the sources, and the decision logic
    only passes their results on. *)
Variable vec_length : Vec3 -> Q.
Variable steer_toward_target : PlayerInfo.t -> Vec3 -> Q.

(** The controls of the basic-driving fallback. *)
Definition basic_driving (my_car : PlayerInfo.t) (target_location : Vec3)
    (distance speed : Q) : SimpleControllerState :=
  let controls := controller_state [] in
  let controls := set_field controls (Steer (steer_toward_target my_car target_location)) in
  let controls := set_field controls (Throttle 1.0) in
  if Qltb 1500 distance && Qltb 20 (PlayerInfo.boost my_car) && Qltb speed 2200
  then set_field controls (Boost true)
  else controls.

(** The point [ground_game_logic] steers at: the ball, or where the
    prediction puts it when the ball is far. *)
Definition steering_target (ball_prediction : BallPrediction)
    (packet : GameTickPacket) (ball_location : Vec3) (distance : Q) : Vec3 :=
  let target_location := ball_location in
  if Qltb 1200 distance then
    match find_slice_at_time ball_prediction
            (seconds_elapsed packet + py_min (distance / 1000.0) 2.0) with
    | Some ball_in_future => location (slice_physics ball_in_future)
    | None => target_location
    end
  else target_location.

Definition ground_game_logic (self : AdvancedFreestyleBot)
    (ball_prediction : BallPrediction) (packet : GameTickPacket)
    (my_car : PlayerInfo.t) (car_location ball_location : Vec3)
    (distance speed : Q) : AdvancedFreestyleBot * option SimpleControllerState :=
  let target_location := steering_target ball_prediction packet ball_location distance in
  if (Qltb 0 speed && Qltb speed 200) && PlayerInfo.has_wheel_contact my_car
     && Qltb 1500 distance
  then speed_flip self packet
  else if (Qltb 900 speed && Qltb speed 1100) && PlayerInfo.has_wheel_contact my_car
          && Qltb 800 distance
  then diagonal_flip self packet
  else if (Qltb 1200 speed && Qltb speed 1400) && PlayerInfo.has_wheel_contact my_car
          && Qltb 1000 distance
  then speed_flip self packet
  else (self, Some (basic_driving my_car target_location distance speed)).

(** One call of [get_output].  [ball_prediction] is what
    [get_ball_prediction_struct()] hands out during the call and [rnd] the
    draw [random.choice] makes, should it be reached.  The boost pad update
    and the debug drawing leave no trace in what follows them. *)
Definition get_output (self : AdvancedFreestyleBot) (packet : GameTickPacket)
    (ball_prediction : BallPrediction) (rnd : nat)
  : outcome (AdvancedFreestyleBot * option SimpleControllerState) :=
  let '(self, continued) :=
    match active_sequence self with
    | Some seq =>
        if negb (done seq) then
          let (seq, controls) := tick seq packet in
          (set_active_sequence self (Some seq), controls)
        else (self, None)
    | None => (self, None)
    end in
  match continued with
  | Some controls => Returns (self, Some controls)
  | None =>
      let my_car := game_cars packet (index self) in
      let car_location := location (PlayerInfo.physics my_car) in
      let car_velocity := velocity (PlayerInfo.physics my_car) in
      let ball_location := location (game_ball packet) in
      let current_time := seconds_elapsed packet in
      let time_since_aerial := current_time - last_aerial_time self in
      let car_to_ball := Vec3_sub ball_location car_location in
      let distance_to_ball := vec_length car_to_ball in
      let ball_height := z ball_location in
      let car_speed := vec_length car_velocity in
      let ground :=
        Returns (ground_game_logic self ball_prediction packet my_car
                   car_location ball_location distance_to_ball car_speed) in
      if check_aerial_conditions self my_car ball_location ball_height
           distance_to_ball time_since_aerial
      then
        match find_aerial_target ball_prediction (seconds_elapsed packet)
                distance_to_ball with
        | Some target =>
            let self := set_last_aerial_time self current_time in
            choose_freestyle_aerial self packet target (PlayerInfo.boost my_car) rnd
        | None => ground
        end
      else ground
  end.

End Collaborators.

(** The step lists the behaviours are written with, aerial tricks first.
    The ceiling shuffle's is among them although its behaviour raises before
    it gets to install it. *)
Definition aerial_plans : list (list ControlStep) :=
  [ tornado_steps; kuxir_twist_steps; air_roll_shot_steps; ceiling_shuffle_steps;
    spinning_aerial_steps; psycho_steps; musty_flick_steps; flip_reset_steps;
    basic_freestyle_aerial_steps ].

Definition ground_plans : list (list ControlStep) :=
  [ diagonal_flip_steps; speed_flip_steps ].

(** The slot is empty or holds one of the bot's own plans. *)
Definition holds_known_plan (self : AdvancedFreestyleBot) : Prop :=
  match active_sequence self with
  | Some seq => In (steps seq) (aerial_plans ++ ground_plans)
  | None => True
  end.

(** ** util/aerial.py: aerial helpers *)

(** Python's [a / b] on numbers: [None] stands for [ZeroDivisionError]. *)
Definition py_div (a b : Q) : option Q :=
  if Qeq_bool b 0 then None else Some (a / b).

Section FloatArithmetic.

(** The rounding a float operation applies to its exact result.  The answer
    of [calculate_boost_usage] near the boundary depends on it, so the two
    operations are rounded one after the other, as Python does. *)
Variable fl : Q -> Q.

(** [calculate_boost_usage(distance, current_boost)]. *)
Definition calculate_boost_usage (distance current_boost : Q) : bool :=
  let estimated_boost_needed := fl (fl (distance / 100) * 10) in
  Qltb estimated_boost_needed current_boost.

End FloatArithmetic.

Section AerialHelpers.

(** [Vec3.length] and [Vec3.dist] of [util/vec.py], both square roots. *)
Variable vec_length : Vec3 -> Q.
Variable vec_dist : Vec3 -> Vec3 -> Q.

(** [should_aerial(car, ball_location, ball_velocity, min_height,
    max_distance, min_boost)], the keyword defaults passed explicitly. *)
Definition should_aerial (car : PlayerInfo.t) (ball_location ball_velocity : Vec3)
    (min_height max_distance min_boost : Q) : bool :=
  let car_location := location (PlayerInfo.physics car) in
  let distance := vec_dist car_location ball_location in
  if Qltb (z ball_location) min_height then false
  else if Qltb max_distance distance then false
  else if Qltb (PlayerInfo.boost car) min_boost then false
  else if PlayerInfo.is_super_sonic car then false
  else true.

(** [should_aerial] called with its defaults,
    [min_height=300, max_distance=2500, min_boost=25]. *)
Definition should_aerial_default (car : PlayerInfo.t)
    (ball_location ball_velocity : Vec3) : bool :=
  should_aerial car ball_location ball_velocity 300 2500 25.

(** [time_to_reach(car_location, target_location, car_velocity)]. *)
Definition time_to_reach (car_location target_location car_velocity : Vec3)
  : option Q :=
  let distance := vec_dist car_location target_location in
  let speed := vec_length car_velocity in
  let speed := if Qltb speed 100 then 1000 else speed in
  py_div distance speed.

End AerialHelpers.

(** ** The bot driven over successive ticks *)

Section Driver.

Variable vec_length : Vec3 -> Q.
Variable steer_toward_target : PlayerInfo.t -> Vec3 -> Q.

(** What the framework supplies at one tick: the packet, the ball prediction
    and the draw [random.choice] would make. *)
Definition tick_input : Type := (GameTickPacket * BallPrediction * nat)%type.

(** [get_output] called once per tick on the same bot; the controls of each
    tick, oldest first, come with the bot as the last call left it. *)
Fixpoint drive (self : AdvancedFreestyleBot) (inputs : list tick_input)
  : outcome (AdvancedFreestyleBot * list (option SimpleControllerState)) :=
  match inputs with
  | [] => Returns (self, [])
  | (packet, ball_prediction, rnd) :: rest =>
      match get_output vec_length steer_toward_target self packet
              ball_prediction rnd with
      | Raises e => Raises e
      | Returns (self', out) =>
          match drive self' rest with
          | Raises e => Raises e
          | Returns (self'', outs) => Returns (self'', out :: outs)
          end
      end
  end.

End Driver.

(** ** Sample inputs *)

Definition origin : Vec3 := {| x := 0; y := 0; z := 0 |}.

(** A car at rest on the ground holding [b] boost. *)
Definition grounded_car (b : Q) : PlayerInfo.t :=
  {| PlayerInfo.physics := {| location := {| x := 0; y := 0; z := 17 |};
                              velocity := origin |};
     PlayerInfo.boost := b;
     PlayerInfo.is_super_sonic := false;
     PlayerInfo.has_wheel_contact := true |}.

(** A packet at clock [now]: the ball hangs at height 500, 1000 away. *)
Definition packet_at (now : Q) : GameTickPacket :=
  {| game_cars := fun _ => grounded_car 70;
     game_ball := {| location := {| x := 0; y := 1000; z := 500 |};
                     velocity := origin |};
     seconds_elapsed := now |}.

Definition step_A : SimpleControllerState := controller_state [Jump true].
Definition step_B : SimpleControllerState := controller_state [Pitch 1.0].

(** The two-step plan of the worked scenario, 0.1 s of A then 0.2 s of B. *)
Definition two_steps : list ControlStep :=
  [control_step 0.1 step_A; control_step 0.2 step_B].

(** A prediction of three slices, at 5.0, 5.5 and 6.0 seconds. *)
Definition three_slices : BallPrediction :=
  [ {| game_seconds := 5.0;
       slice_physics := {| location := {| x := 0; y := 1000; z := 500 |};
                           velocity := origin |} |};
    {| game_seconds := 5.5;
       slice_physics := {| location := {| x := 0; y := 1000; z := 450 |};
                           velocity := origin |} |};
    {| game_seconds := 6.0;
       slice_physics := {| location := {| x := 0; y := 1000; z := 380 |};
                           velocity := origin |} |} ].

(** A bot in the middle of a spinning aerial started at clock 5. *)
Definition bot_mid_aerial : AdvancedFreestyleBot :=
  {| index := 0;
     active_sequence := Some (fst (tick (new_sequence spinning_aerial_steps) (packet_at 5)));
     last_aerial_time := 5;
     aerial_cooldown := 3.0;
     tricks_performed := 1;
     last_trick_type := Some "spinning_aerial"%string;
     quick_chats := [Reactions_OMG] |}.

(** A prediction that reaches further, to 7.0 seconds, the ball still high. *)
Definition long_prediction : BallPrediction :=
  [ {| game_seconds := 5.0;
       slice_physics := {| location := {| x := 0; y := 1000; z := 500 |};
                           velocity := origin |} |};
    {| game_seconds := 6.0;
       slice_physics := {| location := {| x := 0; y := 1000; z := 480 |};
                           velocity := origin |} |};
    {| game_seconds := 6.5;
       slice_physics := {| location := {| x := 0; y := 1000; z := 450 |};
                           velocity := origin |} |};
    {| game_seconds := 7.0;
       slice_physics := {| location := {| x := 0; y := 1000; z := 420 |};
                           velocity := origin |} |} ].

(** Stand-ins for the two collaborators: the taxicab length and a steering
    that always goes straight. *)
Definition taxicab_length (v : Vec3) : Q := Qabs (x v) + Qabs (y v) + Qabs (z v).
Definition steer_straight (car : PlayerInfo.t) (target : Vec3) : Q := 0.
Definition taxicab_dist (a b : Vec3) : Q := taxicab_length (Vec3_sub a b).

(** The packet of [packet_at] with a car that holds [b] boost. *)
Definition packet_with_boost (b now : Q) : GameTickPacket :=
  {| game_cars := fun _ => grounded_car b;
     game_ball := {| location := {| x := 0; y := 1000; z := 500 |};
                     velocity := origin |};
     seconds_elapsed := now |}.

(** A coarse stand-in for float rounding: down to the next thousandth. *)
Definition round_down_milli (q : Q) : Q := inject_Z (Qfloor (q * 1000)) / 1000.

(** * Properties *)

(** ** Comparisons *)

Lemma Qltb_lt (a b : Q) : Qltb a b = true <-> a < b.
Proof.
  unfold Qltb. rewrite negb_true_iff.
  split; intro H.
  - apply Qnot_le_lt. intro Hle. apply Qle_bool_iff in Hle. congruence.
  - destruct (Qle_bool b a) eqn:E; [|reflexivity].
    apply Qle_bool_iff in E. exfalso. exact (Qlt_not_le _ _ H E).
Qed.

Lemma Qltb_ge (a b : Q) : Qltb a b = false <-> b <= a.
Proof.
  unfold Qltb. rewrite negb_false_iff. apply Qle_bool_iff.
Qed.

#[local] Instance Qltb_comp : Proper (Qeq ==> Qeq ==> eq) Qltb.
Proof.
  intros a a' Ha b b' Hb. unfold Qltb. now rewrite Ha, Hb.
Qed.

Lemma py_min_Qmin (a b : Q) : py_min a b == Qmin a b.
Proof.
  unfold py_min. destruct (Qltb b a) eqn:E.
  - apply Qltb_lt in E. symmetry. apply Q.min_r. now apply Qlt_le_weak.
  - apply Qltb_ge in E. symmetry. now apply Q.min_l.
Qed.

(** ** Aerial eligibility *)

Lemma check_aerial_conditions_forallb self my_car ball_location h d t :
  check_aerial_conditions self my_car ball_location h d t
  = forallb (fun c => c) (aerial_conditions self my_car h d t).
Proof.
  unfold check_aerial_conditions, aerial_conditions. simpl.
  rewrite andb_true_r. now rewrite <- !andb_assoc.
Qed.

Lemma forallb_one_false (l : list bool) :
  count_occ bool_dec l false = 1%nat -> forallb (fun c => c) l = false.
Proof.
  induction l as [|c l IH]; simpl; [discriminate|].
  destruct c; simpl; [|reflexivity].
  destruct (bool_dec true false); [discriminate|]. exact IH.
Qed.

(** C3: [check_aerial_conditions] is the conjunction of its six conditions:
    it returns true exactly when ball height, distance range, boost, cooldown,
    not-supersonic and wheel contact all hold, and it returns false whenever
    exactly one of the six fails while the other five hold. *)
Theorem check_aerial_conditions_conjunction
    self my_car ball_location ball_height distance_to_ball time_since_aerial :
  (check_aerial_conditions self my_car ball_location ball_height
     distance_to_ball time_since_aerial = true
   <-> 350 < ball_height
       /\ (400 < distance_to_ball /\ distance_to_ball < 2200)
       /\ 35 < PlayerInfo.boost my_car
       /\ aerial_cooldown self < time_since_aerial
       /\ PlayerInfo.is_super_sonic my_car = false
       /\ PlayerInfo.has_wheel_contact my_car = true)
  /\ (count_occ bool_dec
        (aerial_conditions self my_car ball_height distance_to_ball
           time_since_aerial) false = 1%nat ->
      check_aerial_conditions self my_car ball_location ball_height
        distance_to_ball time_since_aerial = false).
Proof.
  split.
  - unfold check_aerial_conditions.
    rewrite !andb_true_iff, !Qltb_lt, negb_true_iff. tauto.
  - intro H. rewrite check_aerial_conditions_forallb.
    now apply forallb_one_false.
Qed.

(** C7: the boost condition is strict at 35: with boost 38 and the other
    five conditions holding the check returns true, and with boost exactly 35
    it returns false. *)
Theorem check_aerial_conditions_boost_threshold
    self my_car ball_location ball_height distance_to_ball time_since_aerial :
  (PlayerInfo.boost my_car == 38 ->
   350 < ball_height ->
   400 < distance_to_ball < 2200 ->
   aerial_cooldown self < time_since_aerial ->
   PlayerInfo.is_super_sonic my_car = false ->
   PlayerInfo.has_wheel_contact my_car = true ->
   check_aerial_conditions self my_car ball_location ball_height
     distance_to_ball time_since_aerial = true)
  /\ (PlayerInfo.boost my_car == 35 ->
      check_aerial_conditions self my_car ball_location ball_height
        distance_to_ball time_since_aerial = false).
Proof.
  split.
  - intros Hb Hh [Hd1 Hd2] Ht Hs Hw.
    unfold check_aerial_conditions.
    rewrite !andb_true_iff, !Qltb_lt, negb_true_iff.
    repeat split; try assumption. rewrite Hb. reflexivity.
  - intro Hb. unfold check_aerial_conditions.
    assert (E : Qltb 35 (PlayerInfo.boost my_car) = false).
    { apply Qltb_ge. rewrite Hb. apply Qle_refl. }
    rewrite E. now rewrite !andb_false_r.
Qed.

(** ** Lookahead *)

(** C4: the lookahead offset is min(0.5 + distance/1500, 2.5) for every
    distance, never more than 2.5, and 7/6 at distance 1000. *)
Theorem lookahead_min_capped :
  (forall distance, lookahead distance == Qmin (0.5 + distance / 1500) 2.5)
  /\ (forall distance, lookahead distance <= 2.5)
  /\ lookahead 1000 == 7 # 6.
Proof.
  assert (H : forall d, lookahead d == Qmin (0.5 + d / 1500) 2.5).
  { intro d. unfold lookahead. rewrite py_min_Qmin.
    apply Q.min_compat; [|reflexivity].
    apply Qplus_comp; [reflexivity|].
    apply Qmult_comp; [reflexivity|]. reflexivity. }
  split; [exact H|split].
  - intro d. rewrite H. apply Q.le_min_r.
  - reflexivity.
Qed.

(** ** Trick selection *)

Lemma list_remove_length (t : string) (l : list string) :
  contains t l = true -> S (List.length (list_remove t l)) = List.length l.
Proof.
  unfold contains.
  induction l as [|u l IH]; simpl; [discriminate|].
  destruct (String.eqb t u); simpl; [reflexivity|].
  intro H. now rewrite IH.
Qed.

Lemma list_remove_incl (t u : string) (l : list string) :
  In u (list_remove t l) -> In u l.
Proof.
  induction l as [|v l IH]; simpl; [tauto|].
  destruct (String.eqb t v); simpl; [tauto|].
  intros [H|H]; [now left|right; now apply IH].
Qed.

Lemma candidate_tricks_tier_union last boost_amount :
  candidate_tricks last boost_amount =
  match last with
  | Some t =>
      if contains t (tier_union boost_amount)
      then list_remove t (tier_union boost_amount)
      else tier_union boost_amount
  | None => tier_union boost_amount
  end.
Proof. reflexivity. Qed.

Lemma tier_union_cases boost_amount :
  tier_union boost_amount =
    ["tornado"; "ceiling_shuffle"; "kuxir_twist"; "flip_reset"; "psycho";
     "air_roll_shot"; "musty_flick"; "flip_reset";
     "basic_aerial"; "spinning_aerial"]%string
  \/ tier_union boost_amount =
    ["tornado"; "ceiling_shuffle"; "kuxir_twist"; "flip_reset"; "psycho";
     "basic_aerial"; "spinning_aerial"]%string
  \/ tier_union boost_amount =
    ["air_roll_shot"; "musty_flick"; "flip_reset";
     "basic_aerial"; "spinning_aerial"]%string
  \/ tier_union boost_amount = ["basic_aerial"; "spinning_aerial"]%string.
Proof.
  unfold tier_union.
  destruct (Qltb 60 boost_amount), (Qltb 40 boost_amount); simpl; tauto.
Qed.

Lemma tier_union_length boost_amount :
  (2 <= List.length (tier_union boost_amount))%nat.
Proof.
  destruct (tier_union_cases boost_amount) as [E|[E|[E|E]]];
    rewrite E; simpl; lia.
Qed.

Lemma candidate_tricks_length last boost_amount :
  (1 <= List.length (candidate_tricks last boost_amount))%nat.
Proof.
  rewrite candidate_tricks_tier_union.
  pose proof (tier_union_length boost_amount) as H2.
  destruct last as [t|]; [|lia].
  destruct (contains t (tier_union boost_amount)) eqn:E; [|lia].
  apply list_remove_length in E. lia.
Qed.

Lemma random_choice_nonempty (rnd : nat) (l : list string) :
  l <> [] -> exists t, random_choice rnd l = Returns t /\ In t l.
Proof.
  intro Hne. unfold random_choice.
  assert (Hlen : (List.length l <> 0)%nat) by (destruct l; simpl; congruence).
  pose proof (Nat.mod_upper_bound rnd _ Hlen) as Hlt.
  destruct (nth_error l (Nat.modulo rnd (List.length l))) as [t|] eqn:E.
  - exists t. split; [reflexivity|]. eapply nth_error_In; eauto.
  - apply nth_error_None in E. lia.
Qed.

(** C9: whatever the boost amount and the last trick, the candidate list is
    non-empty after the no-repeat removal, so the random choice returns one of
    its members and [choose_freestyle_aerial] never raises the [IndexError]
    of a choice from an empty list. *)
Theorem candidate_tricks_never_empty last boost_amount :
  candidate_tricks last boost_amount <> []
  /\ (forall rnd, exists t,
        random_choice rnd (candidate_tricks last boost_amount) = Returns t
        /\ In t (candidate_tricks last boost_amount))
  /\ (forall self packet target rnd,
        last_trick_type self = last ->
        choose_freestyle_aerial self packet target boost_amount rnd
        <> Raises IndexError).
Proof.
  assert (Hne : candidate_tricks last boost_amount <> []).
  { pose proof (candidate_tricks_length last boost_amount) as H.
    destruct (candidate_tricks last boost_amount); simpl in H; [lia|congruence]. }
  split; [exact Hne|split].
  - intro rnd. now apply random_choice_nonempty.
  - intros self packet target rnd Hlast.
    unfold choose_freestyle_aerial, chosen_trick. rewrite Hlast.
    destruct (random_choice_nonempty rnd _ Hne) as [t [Ht _]].
    rewrite Ht.
    repeat match goal with
           | |- context [if String.eqb t ?n then _ else _] =>
               destruct (String.eqb t n)
           end;
      unfold ceiling_shuffle; simpl; discriminate.
Qed.

Lemma random_choice_In (rnd : nat) (l : list string) (t : string) :
  random_choice rnd l = Returns t -> In t l.
Proof.
  unfold random_choice.
  destruct (nth_error l (Nat.modulo rnd (List.length l))) as [u|] eqn:E;
    [|discriminate].
  intro H. injection H as <-. eapply nth_error_In; eauto.
Qed.

(** X16: where the no-repeat rule does hold: the draw differs from the last trick
    unless that trick is listed twice, which only ["flip_reset"] is, and only
    above 60 boost. *)
Lemma chosen_trick_differs_unless_listed_twice self boost_amount rnd t :
  last_trick_type self = Some t ->
  t <> "flip_reset"%string \/ boost_amount <= 60 ->
  chosen_trick self boost_amount rnd <> Returns t.
Proof.
  intros Hlast Hside Hc. unfold chosen_trick in Hc. rewrite Hlast in Hc.
  apply random_choice_In in Hc.
  assert (Hin : In t (tier_union boost_amount)).
  { unfold candidate_tricks in Hc.
    destruct (contains t (tier_union boost_amount)); [|exact Hc].
    now apply list_remove_incl in Hc. }
  unfold candidate_tricks in Hc. revert Hin Hc. unfold tier_union.
  destruct (Qltb 60 boost_amount) eqn:E60.
  - assert (Hne : t <> "flip_reset"%string).
    { destruct Hside as [H|H]; [exact H|].
      apply Qltb_lt in E60. exfalso. exact (Qlt_not_le _ _ E60 H). }
    destruct (Qltb 40 boost_amount); simpl; intros Hin;
      repeat (destruct Hin as [<-|Hin]; [try congruence; vm_compute; intuition discriminate|]);
      destruct Hin.
  - destruct (Qltb 40 boost_amount); simpl; intros Hin;
      repeat (destruct Hin as [<-|Hin]; [vm_compute; intuition discriminate|]);
      destruct Hin.
Qed.

(** C1, at the failing input: with boost 70 a first selection that drew
    ["flip_reset"] is followed by a second selection that draws ["flip_reset"]
    again, out of a pool of nine candidates: the trick is listed in two tiers
    and only its first occurrence is removed. *)
Theorem choose_freestyle_aerial_repeats_flip_reset :
  let packet := {| game_cars := fun _ =>
                     {| PlayerInfo.physics :=
                          {| location := {| x := 0; y := 0; z := 17 |};
                             velocity := {| x := 0; y := 0; z := 0 |} |};
                        PlayerInfo.boost := 70;
                        PlayerInfo.is_super_sonic := false;
                        PlayerInfo.has_wheel_contact := true |};
                   game_ball := {| location := {| x := 0; y := 1000; z := 500 |};
                                   velocity := {| x := 0; y := 0; z := 0 |} |};
                   seconds_elapsed := 5 |} in
  let target := {| x := 0; y := 1000; z := 500 |} in
  exists first second out1 out2,
    choose_freestyle_aerial (init 0) packet target 70 3 = Returns (first, out1)
    /\ last_trick_type first = Some "flip_reset"%string
    /\ List.length (candidate_tricks (last_trick_type first) 70) = 9%nat
    /\ choose_freestyle_aerial first packet target 70 6 = Returns (second, out2)
    /\ last_trick_type second = Some "flip_reset"%string
    /\ tricks_performed second = 2%nat.
Proof.
  intros packet target.
  destruct (choose_freestyle_aerial (init 0) packet target 70 3)
    as [[first out1]|e] eqn:E1; [|vm_compute in E1; discriminate].
  destruct (choose_freestyle_aerial first packet target 70 6)
    as [[second out2]|e] eqn:E2.
  - exists first, second, out1, out2.
    vm_compute in E1. injection E1 as <- <-.
    vm_compute in E2. injection E2 as <- <-.
    repeat split.
  - vm_compute in E1. injection E1 as <- <-.
    vm_compute in E2. discriminate.
Qed.

(** ** The timed control sequence *)

Lemma total_duration_nonneg (l : list ControlStep) :
  Forall (fun s => 0 <= duration s) l -> 0 <= total_duration l.
Proof.
  induction 1 as [|s l Hs _ IH]; simpl.
  - apply Qle_refl.
  - lra.
Qed.

Lemma active_step_past_plan (l : list ControlStep) :
  Forall (fun s => 0 <= duration s) l ->
  forall elapsed cumulative,
    cumulative + total_duration l <= elapsed ->
    active_step l elapsed cumulative = None.
Proof.
  induction 1 as [|s l Hs Hl IH]; intros elapsed cumulative Hle; simpl.
  - reflexivity.
  - simpl in Hle. pose proof (total_duration_nonneg l Hl) as Hnn.
    assert (E : Qltb elapsed (cumulative + duration s) = false)
      by (apply Qltb_ge; lra).
    rewrite E. apply IH. lra.
Qed.

Lemma tick_steps (seq : Sequence) (packet : GameTickPacket) :
  steps (fst (tick seq packet)) = steps seq.
Proof.
  unfold tick. destruct (done seq); [reflexivity|].
  destruct (active_step _ _ _); reflexivity.
Qed.

Lemma tick_done (seq : Sequence) (packet : GameTickPacket) :
  done seq = true -> tick seq packet = (seq, None).
Proof. intro H. unfold tick. now rewrite H. Qed.

Lemma run_done (seq : Sequence) (packets : list GameTickPacket) :
  done seq = true ->
  run seq packets = (seq, map (fun _ => None) packets).
Proof.
  intro H. induction packets as [|p rest IH]; simpl; [reflexivity|].
  rewrite (tick_done seq p H), IH. reflexivity.
Qed.

(** After the first call the start clock is fixed, so a later clock sees at
    least as much elapsed time. *)
Lemma elapsed_at_tick_mono (seq : Sequence) (packet : GameTickPacket) (now : Q) :
  seconds_elapsed packet <= now ->
  elapsed_at seq (seconds_elapsed packet)
  <= elapsed_at (fst (tick seq packet)) now.
Proof.
  intro Hle. unfold tick, elapsed_at.
  destruct (done seq); simpl.
  - destruct (start_time seq); lra.
  - destruct (active_step _ _ _); simpl; destruct (start_time seq); lra.
Qed.

(** C2: once a call sees an elapsed time of at least the total planned
    duration it yields nothing and the sequence is done, and under a
    non-decreasing clock every later call yields nothing too: the sequence
    stays done and no step is active at any later clock value. *)
Theorem tick_done_is_terminal (seq : Sequence) (packet : GameTickPacket)
    (later : list GameTickPacket) :
  Forall (fun s => 0 <= duration s) (steps seq) ->
  total_duration (steps seq) <= elapsed_at seq (seconds_elapsed packet) ->
  Sorted Qle (seconds_elapsed packet :: map seconds_elapsed later) ->
  snd (tick seq packet) = None
  /\ done (fst (tick seq packet)) = true
  /\ Forall (fun out => out = None) (snd (run (fst (tick seq packet)) later))
  /\ done (fst (run (fst (tick seq packet)) later)) = true
  /\ Forall (fun p =>
       active_step (steps (fst (tick seq packet)))
         (elapsed_at (fst (tick seq packet)) (seconds_elapsed p)) 0 = None)
       later.
Proof.
  intros Hnn Hpast Hclock.
  assert (Hfirst : snd (tick seq packet) = None
                   /\ done (fst (tick seq packet)) = true).
  { unfold tick. destruct (done seq) eqn:Hd; [now split|].
    rewrite (active_step_past_plan _ Hnn); [now split|]. lra. }
  destruct Hfirst as [Hout Hdone].
  split; [exact Hout|]. split; [exact Hdone|].
  rewrite (run_done _ later Hdone). simpl.
  split; [|split; [exact Hdone|]].
  - apply Forall_forall. intros out Hin.
    apply in_map_iff in Hin. now destruct Hin as [_ [<- _]].
  - apply Sorted_StronglySorted in Hclock; [|exact Qle_trans].
    apply StronglySorted_inv in Hclock. destruct Hclock as [_ Hall].
    apply Forall_forall. intros p Hin.
    rewrite tick_steps. apply active_step_past_plan; [exact Hnn|].
    assert (Hle : seconds_elapsed packet <= seconds_elapsed p).
    { rewrite Forall_forall in Hall. apply Hall. now apply in_map. }
    pose proof (elapsed_at_tick_mono seq packet _ Hle). lra.
Qed.

(** ** The trajectory sampler *)

Lemma last_slice_In (slices : BallPrediction) (l : Slice) :
  last_slice slices = Some l -> In l slices.
Proof. unfold last_slice. apply nth_error_In. Qed.

Lemma last_slice_nil_iff (slices : BallPrediction) :
  last_slice slices = None <-> slices = [].
Proof.
  unfold last_slice. split.
  - intro H. apply nth_error_None in H.
    destruct slices; [reflexivity|simpl in H; lia].
  - intros ->. reflexivity.
Qed.

Lemma find_first_is_closest (t : Q) (slices : BallPrediction) (s : Slice) :
  StronglySorted time_le slices ->
  find (fun u => Qle_bool t (game_seconds u)) slices = Some s ->
  forall s', In s' slices -> t <= game_seconds s' ->
             game_seconds s <= game_seconds s'.
Proof.
  induction 1 as [|a rest Hrest IH Ha]; simpl; [discriminate|].
  destruct (Qle_bool t (game_seconds a)) eqn:E.
  - intros [= <-] s' [<-|Hin] Ht; [apply Qle_refl|].
    rewrite Forall_forall in Ha. exact (Ha _ Hin).
  - intros Hf s' [<-|Hin] Ht.
    + apply Qle_bool_iff in Ht. congruence.
    + now apply IH.
Qed.

(** C6: on slices in ascending time order, a target time within the covered
    horizon gets a slice of the sequence stamped at or after the target, the
    earliest such one; an empty sequence, or a target past the last slice,
    gets nothing. *)
Theorem find_slice_at_time_closest_after (slices : BallPrediction) (game_time : Q) :
  Sorted time_le slices ->
  (slices = [] -> find_slice_at_time slices game_time = None)
  /\ (forall l, last_slice slices = Some l -> game_seconds l < game_time ->
        find_slice_at_time slices game_time = None)
  /\ (forall l, last_slice slices = Some l -> game_time <= game_seconds l ->
        exists s,
          find_slice_at_time slices game_time = Some s
          /\ In s slices
          /\ game_time <= game_seconds s
          /\ forall s', In s' slices -> game_time <= game_seconds s' ->
                        game_seconds s <= game_seconds s').
Proof.
  intro Hsorted.
  apply Sorted_StronglySorted in Hsorted;
    [|intros a b c Hab Hbc; exact (Qle_trans _ _ _ Hab Hbc)].
  unfold find_slice_at_time. split; [|split].
  - intros ->. reflexivity.
  - intros l Hl Hlt. rewrite Hl.
    apply Qltb_lt in Hlt. now rewrite Hlt.
  - intros l Hl Hle. rewrite Hl.
    apply Qltb_ge in Hle as Hb. rewrite Hb.
    destruct (find (fun u => Qle_bool game_time (game_seconds u)) slices)
      as [s|] eqn:E.
    + exists s. apply find_some in E as Hs. destruct Hs as [Hin Hp].
      apply Qle_bool_iff in Hp.
      split; [reflexivity|]. split; [exact Hin|]. split; [exact Hp|].
      now apply find_first_is_closest.
    + exfalso. apply last_slice_In in Hl.
      pose proof (find_none _ _ E _ Hl) as Hn.
      simpl in Hn. apply Qle_bool_iff in Hle. congruence.
Qed.

(** ** The decision controller *)

Section DecisionController.

(** The facts below hold whatever [Vec3.length] and [steer_toward_target]
    compute. *)
Variable vec_length : Vec3 -> Q.
Variable steer_toward_target : PlayerInfo.t -> Vec3 -> Q.

(** C5: when the active sequence exists, is not done and its tick yields
    controls, [get_output] returns exactly those controls and decides nothing:
    the last aerial time, the trick counter, the last trick and the other
    fields keep their values, and the slot still holds the same sequence,
    advanced by that one tick. *)
Theorem get_output_continues_active_sequence
    (self : AdvancedFreestyleBot) (packet : GameTickPacket)
    (ball_prediction : BallPrediction) (rnd : nat)
    (seq seq' : Sequence) (controls : SimpleControllerState) :
  active_sequence self = Some seq ->
  done seq = false ->
  tick seq packet = (seq', Some controls) ->
  exists self',
    get_output vec_length steer_toward_target self packet ball_prediction rnd = Returns (self', Some controls)
    /\ last_aerial_time self' = last_aerial_time self
    /\ tricks_performed self' = tricks_performed self
    /\ last_trick_type self' = last_trick_type self
    /\ aerial_cooldown self' = aerial_cooldown self
    /\ index self' = index self
    /\ quick_chats self' = quick_chats self
    /\ active_sequence self' = Some seq'
    /\ steps seq' = steps seq.
Proof.
  intros Hactive Hdone Htick.
  exists (set_active_sequence self (Some seq')).
  unfold get_output. rewrite Hactive, Hdone. simpl. rewrite Htick.
  repeat split.
  change seq' with (fst (seq', Some controls)). rewrite <- Htick.
  apply tick_steps.
Qed.

Lemma speed_flip_first_tick (self : AdvancedFreestyleBot) (packet : GameTickPacket) :
  speed_flip self packet =
  (set_active_sequence (send_quick_chat self Reactions_Siiiick)
     (Some {| steps := speed_flip_steps;
              start_time := Some (seconds_elapsed packet);
              elapsed_time := seconds_elapsed packet - seconds_elapsed packet;
              done := false |}),
   Some (controller_state [Jump true; Boost true; Pitch 0.2])).
Proof.
  unfold speed_flip, start_sequence, tick, new_sequence, elapsed_at. simpl.
  assert (E : Qltb (seconds_elapsed packet - seconds_elapsed packet) (0 + 0.05)
              = true) by (apply Qltb_lt; lra).
  rewrite E. reflexivity.
Qed.

(** C8: at speed 150, with wheel contact and 1800 from the ball, the ground
    logic starts the speed flip sequence and returns its first output, the
    jump-and-boost step, instead of the basic-driving controls. *)
Theorem ground_game_logic_speed_flip_at_low_speed
    (self : AdvancedFreestyleBot) (ball_prediction : BallPrediction)
    (packet : GameTickPacket) (my_car : PlayerInfo.t)
    (car_location ball_location : Vec3) (distance speed : Q) :
  speed == 150 ->
  PlayerInfo.has_wheel_contact my_car = true ->
  distance == 1800 ->
  ground_game_logic steer_toward_target self ball_prediction packet my_car car_location
    ball_location distance speed = speed_flip self packet
  /\ snd (speed_flip self packet)
     = Some (controller_state [Jump true; Boost true; Pitch 0.2])
  /\ exists seq,
       active_sequence (fst (speed_flip self packet)) = Some seq
       /\ steps seq = speed_flip_steps
       /\ done seq = false.
Proof.
  intros Hs Hw Hd. split; [|split].
  - unfold ground_game_logic. rewrite Hs, Hd, Hw. reflexivity.
  - rewrite speed_flip_first_tick. reflexivity.
  - rewrite speed_flip_first_tick. eexists. simpl. repeat split.
Qed.

(** C10: at speed exactly 0, with wheel contact and more than 1500 from the
    ball, no flip is started: the bot is left as it was and the output is the
    basic-driving controls, full throttle, steering at the target, boosting
    exactly when the car holds more than 20 boost. *)
Theorem ground_game_logic_standstill_drives
    (self : AdvancedFreestyleBot) (ball_prediction : BallPrediction)
    (packet : GameTickPacket) (my_car : PlayerInfo.t)
    (car_location ball_location : Vec3) (distance speed : Q) :
  speed == 0 ->
  PlayerInfo.has_wheel_contact my_car = true ->
  1500 < distance ->
  exists controls,
    ground_game_logic steer_toward_target self ball_prediction packet my_car car_location
      ball_location distance speed = (self, Some controls)
    /\ (self, Some controls) <> speed_flip self packet
    /\ steer controls
       = steer_toward_target my_car
           (steering_target ball_prediction packet ball_location distance)
    /\ throttle controls = 1.0
    /\ boost controls = Qltb 20 (PlayerInfo.boost my_car)
    /\ jump controls = false
    /\ pitch controls = 0 /\ yaw controls = 0 /\ roll controls = 0.
Proof.
  intros Hs Hw Hd.
  exists (basic_driving steer_toward_target my_car
            (steering_target ball_prediction packet ball_location distance)
            distance speed).
  assert (E0 : Qltb 0 speed = false) by (apply Qltb_ge; lra).
  assert (E900 : Qltb 900 speed = false) by (apply Qltb_ge; lra).
  assert (E1200 : Qltb 1200 speed = false) by (apply Qltb_ge; lra).
  assert (E2200 : Qltb speed 2200 = true) by (apply Qltb_lt; lra).
  assert (Efar : Qltb 1500 distance = true) by (now apply Qltb_lt).
  assert (Hfields :
    forall c, c = basic_driving steer_toward_target my_car
                    (steering_target ball_prediction packet ball_location distance)
                    distance speed ->
      steer c = steer_toward_target my_car
                  (steering_target ball_prediction packet ball_location distance)
      /\ throttle c = 1.0
      /\ boost c = Qltb 20 (PlayerInfo.boost my_car)
      /\ jump c = false
      /\ pitch c = 0 /\ yaw c = 0 /\ roll c = 0).
  { intros c ->. unfold basic_driving. rewrite Efar, E2200. simpl.
    destruct (Qltb 20 (PlayerInfo.boost my_car)); simpl; repeat split. }
  split; [|split].
  - unfold ground_game_logic. rewrite E0, E900, E1200. reflexivity.
  - rewrite speed_flip_first_tick. intro H. injection H as _ H.
    apply (f_equal jump) in H.
    destruct (Hfields _ eq_refl) as (_ & _ & _ & Hj & _).
    rewrite Hj in H. discriminate.
  - exact (Hfields _ eq_refl).
Qed.

End DecisionController.

(** * Further properties of the controller and the aerial helpers *)

Lemma candidate_tricks_never_empty_aux last boost_amount rnd :
  exists t, random_choice rnd (candidate_tricks last boost_amount) = Returns t
            /\ In t (candidate_tricks last boost_amount).
Proof.
  apply random_choice_nonempty.
  pose proof (candidate_tricks_length last boost_amount) as H.
  destruct (candidate_tricks last boost_amount); simpl in H; [lia|congruence].
Qed.

(** ** Behaviours and their plans *)

Lemma tick_fresh (l : list ControlStep) (s : ControlStep) (rest : list ControlStep)
    (packet : GameTickPacket) :
  l = s :: rest -> 0 < duration s ->
  tick (new_sequence l) packet
  = ({| steps := l; start_time := Some (seconds_elapsed packet);
        elapsed_time := seconds_elapsed packet - seconds_elapsed packet;
        done := false |}, Some (controls s)).
Proof.
  intros -> Hpos. unfold tick, new_sequence, elapsed_at. simpl.
  assert (E : Qltb (seconds_elapsed packet - seconds_elapsed packet)
                (0 + duration s) = true) by (apply Qltb_lt; lra).
  rewrite E. reflexivity.
Qed.

(** Every plan opens with a step of positive duration. *)
Lemma known_plan_opens (l : list ControlStep) :
  In l (aerial_plans ++ ground_plans) ->
  exists s rest, l = s :: rest /\ 0 < duration s.
Proof.
  simpl. intro H.
  repeat (destruct H as [<-|H];
          [eexists; eexists; split; [reflexivity|reflexivity]|]).
  destruct H.
Qed.

Lemma start_sequence_known (self : AdvancedFreestyleBot) (packet : GameTickPacket)
    (l : list ControlStep) :
  In l (aerial_plans ++ ground_plans) ->
  exists seq c,
    start_sequence self packet l = (set_active_sequence self (Some seq), Some c)
    /\ steps seq = l /\ done seq = false
    /\ start_time seq = Some (seconds_elapsed packet)
    /\ In c (map controls l).
Proof.
  intro Hin. destruct (known_plan_opens l Hin) as (s & rest & Hl & Hpos).
  unfold start_sequence. rewrite (tick_fresh l s rest packet Hl Hpos).
  eexists. eexists. split; [reflexivity|]. simpl.
  repeat split. rewrite Hl. simpl. now left.
Qed.

Lemma ceiling_shuffle_needs_high_boost (last : option string) (boost_amount : Q) :
  In "ceiling_shuffle"%string (candidate_tricks last boost_amount) ->
  60 < boost_amount.
Proof.
  intro Hin.
  assert (Hu : In "ceiling_shuffle"%string (tier_union boost_amount)).
  { unfold candidate_tricks in Hin.
    destruct last as [u|]; [|exact Hin].
    destruct (contains u (tier_union boost_amount)); [|exact Hin].
    now apply list_remove_incl in Hin. }
  unfold tier_union in Hu.
  destruct (Qltb 60 boost_amount) eqn:E60; [now apply Qltb_lt|].
  exfalso. destruct (Qltb 40 boost_amount); simpl in Hu;
    repeat (destruct Hu as [Hu|Hu]; [discriminate Hu|]); exact Hu.
Qed.

(** What [choose_freestyle_aerial] does, whichever trick is drawn: the
    ceiling shuffle raises, every other trick is installed. *)
Lemma choose_freestyle_aerial_installs
    (self : AdvancedFreestyleBot) (packet : GameTickPacket) (target : Vec3)
    (boost_amount : Q) (rnd : nat) :
  exists t,
    chosen_trick self boost_amount rnd = Returns t
    /\ In t (candidate_tricks (last_trick_type self) boost_amount)
    /\ ((t = "ceiling_shuffle"%string
         /\ choose_freestyle_aerial self packet target boost_amount rnd
            = Raises AttributeError)
        \/ (t <> "ceiling_shuffle"%string
            /\ exists self' c seq q,
                 choose_freestyle_aerial self packet target boost_amount rnd
                 = Returns (self', Some c)
                 /\ last_trick_type self' = Some t
                 /\ tricks_performed self' = S (tricks_performed self)
                 /\ quick_chats self' = quick_chats self ++ [q]
                 /\ active_sequence self' = Some seq
                 /\ In (steps seq) aerial_plans
                 /\ done seq = false
                 /\ start_time seq = Some (seconds_elapsed packet)
                 /\ In c (map controls (steps seq))
                 /\ last_aerial_time self' = last_aerial_time self
                 /\ aerial_cooldown self' = aerial_cooldown self
                 /\ index self' = index self)).
Proof.
  destruct (candidate_tricks_never_empty_aux (last_trick_type self) boost_amount rnd)
    as (t & Ht & Hin).
  exists t. split; [exact Ht|]. split; [exact Hin|].
  unfold choose_freestyle_aerial, chosen_trick. rewrite Ht.
  destruct (String.eqb t "ceiling_shuffle") eqn:Ecs.
  - left. apply String.eqb_eq in Ecs. subst t. split; reflexivity.
  - right. split; [now apply String.eqb_neq|].
    repeat match goal with
           | |- context [if String.eqb t ?n then _ else _] =>
               destruct (String.eqb t n)
           end;
      match goal with
      | |- context [Returns (?f (record_trick self t) packet target)] =>
          unfold f;
          match goal with
          | |- context [start_sequence ?b packet ?l] =>
              destruct (start_sequence_known b packet l)
                as (seq & c & E & Hs & Hd & Hst & Hc);
                [simpl; tauto|];
                rewrite E; eexists; exists c, seq; eexists;
                split; [reflexivity|]; simpl; rewrite Hs;
                repeat split; try assumption; simpl; tauto
          end
      end.
Qed.

(** X1: [choose_freestyle_aerial] raises [AttributeError] exactly when it
    draws the ceiling shuffle, which takes more than 60 boost: that behaviour
    asks the quick-chat enum for an entry it does not have.  On every other
    draw it returns controls, and the bot it leaves has the drawn trick, a
    member of the candidate list, recorded as last trick, the counter one
    higher, exactly one more quick chat, and a fresh sequence of one of the
    aerial plans in the slot; the last aerial time, the cooldown and the index
    are untouched. *)
Theorem choose_freestyle_aerial_effect
    (self : AdvancedFreestyleBot) (packet : GameTickPacket) (target : Vec3)
    (boost_amount : Q) (rnd : nat) :
  exists t,
    chosen_trick self boost_amount rnd = Returns t
    /\ In t (candidate_tricks (last_trick_type self) boost_amount)
    /\ (t = "ceiling_shuffle"%string ->
        60 < boost_amount
        /\ choose_freestyle_aerial self packet target boost_amount rnd
           = Raises AttributeError)
    /\ (t <> "ceiling_shuffle"%string ->
        exists self' c seq q,
          choose_freestyle_aerial self packet target boost_amount rnd
          = Returns (self', Some c)
          /\ last_trick_type self' = Some t
          /\ tricks_performed self' = S (tricks_performed self)
          /\ quick_chats self' = quick_chats self ++ [q]
          /\ active_sequence self' = Some seq
          /\ In (steps seq) aerial_plans
          /\ done seq = false
          /\ start_time seq = Some (seconds_elapsed packet)
          /\ In c (map controls (steps seq))
          /\ last_aerial_time self' = last_aerial_time self
          /\ aerial_cooldown self' = aerial_cooldown self
          /\ index self' = index self).
Proof.
  destruct (choose_freestyle_aerial_installs self packet target boost_amount rnd)
    as (t & Ht & Hin & Hcase).
  exists t. split; [exact Ht|]. split; [exact Hin|]. split.
  - intros ->. split.
    + exact (ceiling_shuffle_needs_high_boost _ _ Hin).
    + destruct Hcase as [[_ E]|[Hne _]]; [exact E|congruence].
  - intro Hne. destruct Hcase as [[Heq _]|[_ H]]; [congruence|exact H].
Qed.

(** X19: the eleven plans are well formed: each has between 4 and 11
    steps, every step lasts between 0.05 and 0.8 seconds with pitch, yaw and
    roll within -1 and 1, and no plan lasts longer than 1.85 seconds, less
    than the 3 second cooldown between aerials. *)
Theorem known_plans_well_formed (l : list ControlStep) :
  In l (aerial_plans ++ ground_plans) ->
  (4 <= List.length l <= 11)%nat
  /\ Forall (fun s => 0.05 <= duration s <= 0.8
                      /\ -1 <= pitch (controls s) <= 1
                      /\ -1 <= yaw (controls s) <= 1
                      /\ -1 <= roll (controls s) <= 1) l
  /\ total_duration l <= 1.85
  /\ total_duration l < aerial_cooldown (init 0).
Proof.
  simpl. intro H.
  repeat (destruct H as [<-|H];
          [split; [simpl; lia|];
           split; [repeat constructor; vm_compute; discriminate|];
           split; vm_compute; reflexivity || discriminate|]).
  destruct H.
Qed.

(** ** Trick selection by boost tier *)

(** X2: a drawn trick belongs to a tier the boost unlocks: at 40 boost or
    less only the two baseline tricks can be drawn, and at 60 or less none of
    the four tricks of the high tier alone. *)
Theorem chosen_trick_within_unlocked_tiers
    (self : AdvancedFreestyleBot) (boost_amount : Q) (rnd : nat) (t : string) :
  chosen_trick self boost_amount rnd = Returns t ->
  (boost_amount <= 40 ->
   t = "basic_aerial"%string \/ t = "spinning_aerial"%string)
  /\ (boost_amount <= 60 ->
      In t ["air_roll_shot"; "musty_flick"; "flip_reset";
            "basic_aerial"; "spinning_aerial"]%string).
Proof.
  intro Hc. unfold chosen_trick in Hc. apply random_choice_In in Hc.
  assert (Hin : In t (tier_union boost_amount)).
  { unfold candidate_tricks in Hc.
    destruct (last_trick_type self) as [u|]; [|exact Hc].
    destruct (contains u (tier_union boost_amount)); [|exact Hc].
    now apply list_remove_incl in Hc. }
  unfold tier_union in Hin. split; intro Hle.
  - assert (E60 : Qltb 60 boost_amount = false) by (apply Qltb_ge; lra).
    assert (E40 : Qltb 40 boost_amount = false) by (now apply Qltb_ge).
    rewrite E60, E40 in Hin. simpl in Hin.
    destruct Hin as [<-|[<-|[]]]; [now left|now right].
  - assert (E60 : Qltb 60 boost_amount = false) by (now apply Qltb_ge).
    rewrite E60 in Hin.
    destruct (Qltb 40 boost_amount); simpl in Hin; simpl; tauto.
Qed.

(** ** Auxiliary facts *)

Lemma check_aerial_conditions_slot (self : AdvancedFreestyleBot)
    (slot : option Sequence) (my_car : PlayerInfo.t) (ball_location : Vec3)
    (h d t : Q) :
  check_aerial_conditions (set_active_sequence self slot) my_car ball_location h d t
  = check_aerial_conditions self my_car ball_location h d t.
Proof. reflexivity. Qed.

Lemma find_aerial_target_high (ball_prediction : BallPrediction)
    (current_time distance : Q) (target : Vec3) :
  find_aerial_target ball_prediction current_time distance = Some target ->
  400 < z target.
Proof.
  unfold find_aerial_target.
  destruct (find_slice_at_time _ _) as [s|]; [|discriminate].
  destruct (Qltb 400 (z (location (slice_physics s)))) eqn:E; [|discriminate].
  intros [= <-]. now apply Qltb_lt.
Qed.

Lemma check_aerial_conditions_true self my_car ball_location h d t :
  check_aerial_conditions self my_car ball_location h d t = true ->
  350 < h /\ 400 < d < 2200 /\ 35 < PlayerInfo.boost my_car
  /\ aerial_cooldown self < t
  /\ PlayerInfo.is_super_sonic my_car = false
  /\ PlayerInfo.has_wheel_contact my_car = true.
Proof.
  unfold check_aerial_conditions.
  rewrite !andb_true_iff, !Qltb_lt, negb_true_iff. tauto.
Qed.

Lemma active_step_within (l : list ControlStep) :
  forall elapsed cumulative,
    cumulative <= elapsed ->
    elapsed < cumulative + total_duration l ->
    exists c, active_step l elapsed cumulative = Some c /\ In c (map controls l).
Proof.
  induction l as [|s l IH]; intros elapsed cumulative Hlo Hhi; simpl in *.
  - exfalso. lra.
  - destruct (Qltb elapsed (cumulative + duration s)) eqn:E.
    + exists (controls s). split; [reflexivity|now left].
    + apply Qltb_ge in E.
      destruct (IH elapsed (cumulative + duration s)) as (c & Hc & Hin);
        [exact E|lra|].
      exists c. split; [exact Hc|now right].
Qed.

(** ** Ground logic *)

Section ControllerInvariants.

Variable vec_length : Vec3 -> Q.
Variable steer_toward_target : PlayerInfo.t -> Vec3 -> Q.

Lemma ground_game_logic_cases
    (self : AdvancedFreestyleBot) (ball_prediction : BallPrediction)
    (packet : GameTickPacket) (my_car : PlayerInfo.t)
    (car_location ball_location : Vec3) (distance speed : Q) :
  let result :=
    ground_game_logic steer_toward_target self ball_prediction packet my_car
      car_location ball_location distance speed in
  (PlayerInfo.has_wheel_contact my_car = true /\ 800 < distance
   /\ (result = speed_flip self packet \/ result = diagonal_flip self packet))
  \/ result
     = (self, Some (basic_driving steer_toward_target my_car
                      (steering_target ball_prediction packet ball_location distance)
                      distance speed)).
Proof.
  unfold ground_game_logic.
  destruct (PlayerInfo.has_wheel_contact my_car);
    [|rewrite !andb_false_r; simpl; now right].
  rewrite !andb_true_r.
  destruct (Qltb 0 speed && Qltb speed 200 && Qltb 1500 distance) eqn:E1.
  { left. apply andb_true_iff in E1. destruct E1 as [_ E1].
    apply Qltb_lt in E1. repeat split; [lra|now left]. }
  destruct (Qltb 900 speed && Qltb speed 1100 && Qltb 800 distance) eqn:E2.
  { left. apply andb_true_iff in E2. destruct E2 as [_ E2].
    apply Qltb_lt in E2. repeat split; [lra|now right]. }
  destruct (Qltb 1200 speed && Qltb speed 1400 && Qltb 1000 distance) eqn:E3.
  { left. apply andb_true_iff in E3. destruct E3 as [_ E3].
    apply Qltb_lt in E3. repeat split; [lra|now left]. }
  now right.
Qed.

(** X3: the ground logic starts a flip only from the ground and only when
    more than 800 from the ball.  Without wheel contact, or within 800 of the
    ball, the bot is left unchanged and the output is plain driving: full
    throttle, no jump; within 800 the steering aims at the ball itself and the
    boost stays off. *)
Theorem ground_game_logic_flips_only_grounded_and_far
    (self : AdvancedFreestyleBot) (ball_prediction : BallPrediction)
    (packet : GameTickPacket) (my_car : PlayerInfo.t)
    (car_location ball_location : Vec3) (distance speed : Q) :
  PlayerInfo.has_wheel_contact my_car = false \/ distance <= 800 ->
  exists c,
    ground_game_logic steer_toward_target self ball_prediction packet my_car
      car_location ball_location distance speed = (self, Some c)
    /\ throttle c = 1.0 /\ jump c = false
    /\ pitch c = 0 /\ yaw c = 0 /\ roll c = 0
    /\ (distance <= 800 ->
        boost c = false
        /\ steer c = steer_toward_target my_car ball_location).
Proof.
  intro Hside.
  destruct (ground_game_logic_cases self ball_prediction packet my_car
              car_location ball_location distance speed)
    as [(Hw & Hd & _)|E].
  { exfalso. destruct Hside as [H|H]; [congruence|lra]. }
  rewrite E. eexists. split; [reflexivity|].
  assert (Hfar : forall c,
            c = basic_driving steer_toward_target my_car
                  (steering_target ball_prediction packet ball_location distance)
                  distance speed ->
            throttle c = 1.0 /\ jump c = false
            /\ pitch c = 0 /\ yaw c = 0 /\ roll c = 0).
  { intros c ->. unfold basic_driving.
    destruct (Qltb 1500 distance && Qltb 20 (PlayerInfo.boost my_car)
              && Qltb speed 2200); simpl; repeat split. }
  destruct (Hfar _ eq_refl) as (Ht & Hj & Hp & Hy & Hr).
  split; [exact Ht|]. split; [exact Hj|]. split; [exact Hp|].
  split; [exact Hy|]. split; [exact Hr|].
  intro Hnear.
  assert (E12 : Qltb 1200 distance = false) by (apply Qltb_ge; lra).
  assert (E15 : Qltb 1500 distance = false) by (apply Qltb_ge; lra).
  unfold basic_driving, steering_target. rewrite E12, E15. simpl.
  split; reflexivity.
Qed.

(** X4: between 900 and 1100 of speed, on the ground and more than 800
    from the ball, the ground logic starts the diagonal flip: its plan goes in
    the slot, its first output is the bare jump, and no quick chat is sent. *)
Theorem ground_game_logic_diagonal_flip_band
    (self : AdvancedFreestyleBot) (ball_prediction : BallPrediction)
    (packet : GameTickPacket) (my_car : PlayerInfo.t)
    (car_location ball_location : Vec3) (distance speed : Q) :
  900 < speed < 1100 ->
  PlayerInfo.has_wheel_contact my_car = true ->
  800 < distance ->
  exists seq,
    ground_game_logic steer_toward_target self ball_prediction packet my_car
      car_location ball_location distance speed
    = (set_active_sequence self (Some seq), Some (controller_state [Jump true]))
    /\ steps seq = diagonal_flip_steps
    /\ done seq = false
    /\ start_time seq = Some (seconds_elapsed packet).
Proof.
  intros [Hlo Hhi] Hw Hd.
  assert (E1 : Qltb speed 200 = false) by (apply Qltb_ge; lra).
  assert (E2 : Qltb 900 speed = true) by (now apply Qltb_lt).
  assert (E3 : Qltb speed 1100 = true) by (now apply Qltb_lt).
  assert (E4 : Qltb 800 distance = true) by (now apply Qltb_lt).
  unfold ground_game_logic. rewrite E1, E2, E3, E4, Hw.
  rewrite andb_false_r. simpl.
  unfold diagonal_flip, start_sequence.
  rewrite (tick_fresh diagonal_flip_steps _ _ packet eq_refl); [|reflexivity].
  eexists. split; [reflexivity|]. repeat split.
Qed.

(** X5: between 1200 and 1400 of speed, on the ground and more than 1000
    from the ball, the ground logic starts the speed flip, as it does from a
    near standstill. *)
Theorem ground_game_logic_speed_flip_at_high_speed
    (self : AdvancedFreestyleBot) (ball_prediction : BallPrediction)
    (packet : GameTickPacket) (my_car : PlayerInfo.t)
    (car_location ball_location : Vec3) (distance speed : Q) :
  1200 < speed < 1400 ->
  PlayerInfo.has_wheel_contact my_car = true ->
  1000 < distance ->
  exists seq,
    ground_game_logic steer_toward_target self ball_prediction packet my_car
      car_location ball_location distance speed
    = (set_active_sequence (send_quick_chat self Reactions_Siiiick) (Some seq),
       Some (controller_state [Jump true; Boost true; Pitch 0.2]))
    /\ steps seq = speed_flip_steps
    /\ done seq = false
    /\ start_time seq = Some (seconds_elapsed packet).
Proof.
  intros [Hlo Hhi] Hw Hd.
  assert (E1 : Qltb speed 200 = false) by (apply Qltb_ge; lra).
  assert (E2 : Qltb speed 1100 = false) by (apply Qltb_ge; lra).
  assert (E3 : Qltb 1200 speed = true) by (now apply Qltb_lt).
  assert (E4 : Qltb speed 1400 = true) by (now apply Qltb_lt).
  assert (E5 : Qltb 1000 distance = true) by (now apply Qltb_lt).
  unfold ground_game_logic. rewrite E1, E2, E3, E4, E5, Hw.
  rewrite !andb_false_r. simpl.
  unfold speed_flip, start_sequence.
  rewrite (tick_fresh speed_flip_steps _ _ packet eq_refl); [|reflexivity].
  eexists. split; [reflexivity|]. repeat split.
Qed.

(** What the ground logic leaves behind, whichever branch it takes. *)
Lemma ground_game_logic_effect
    (self : AdvancedFreestyleBot) (ball_prediction : BallPrediction)
    (packet : GameTickPacket) (my_car : PlayerInfo.t)
    (car_location ball_location : Vec3) (distance speed : Q) :
  exists self' c,
    ground_game_logic steer_toward_target self ball_prediction packet my_car
      car_location ball_location distance speed = (self', Some c)
    /\ last_aerial_time self' = last_aerial_time self
    /\ tricks_performed self' = tricks_performed self
    /\ last_trick_type self' = last_trick_type self
    /\ aerial_cooldown self' = aerial_cooldown self
    /\ index self' = index self
    /\ (quick_chats self' = quick_chats self
        \/ exists q, quick_chats self' = quick_chats self ++ [q])
    /\ (active_sequence self' = active_sequence self
        \/ exists seq, active_sequence self' = Some seq
                       /\ In (steps seq) ground_plans /\ done seq = false).
Proof.
  destruct (ground_game_logic_cases self ball_prediction packet my_car
              car_location ball_location distance speed)
    as [(_ & _ & [E|E])|E]; rewrite E.
  - unfold speed_flip.
    destruct (start_sequence_known (send_quick_chat self Reactions_Siiiick)
                packet speed_flip_steps) as (seq & c & Es & Hs & Hd & _);
      [simpl; tauto|].
    rewrite Es. eexists. eexists. split; [reflexivity|]. simpl.
    repeat split.
    + right. eexists. reflexivity.
    + right. exists seq. rewrite Hs. simpl. tauto.
  - unfold diagonal_flip.
    destruct (start_sequence_known self packet diagonal_flip_steps)
      as (seq & c & Es & Hs & Hd & _); [simpl; tauto|].
    rewrite Es. eexists. eexists. split; [reflexivity|]. simpl.
    repeat split.
    + now left.
    + right. exists seq. rewrite Hs. simpl. tauto.
  - eexists. eexists. split; [reflexivity|]. repeat split; now left.
Qed.

(** ** One call of [get_output] *)

(** The quantities [get_output] gathers from the packet. *)
Local Abbreviation my_car_of self packet := (game_cars packet (index self)).
Local Abbreviation ball_of packet := (location (game_ball packet)).
Local Abbreviation distance_of self packet :=
  (vec_length (Vec3_sub (location (game_ball packet))
                 (location (PlayerInfo.physics (game_cars packet (index self)))))).
Local Abbreviation speed_of self packet :=
  (vec_length (velocity (PlayerInfo.physics (game_cars packet (index self))))).
Local Abbreviation eligible self packet :=
  (check_aerial_conditions self (game_cars packet (index self))
     (location (game_ball packet)) (z (location (game_ball packet)))
     (distance_of self packet)
     (seconds_elapsed packet - last_aerial_time self)).

(** The three ways through [get_output]: the active sequence yields and is
    followed; or the slot is idle (empty, done, or just run out) and either an
    aerial is chosen or the ground logic runs. *)
Lemma get_output_cases (self : AdvancedFreestyleBot) (packet : GameTickPacket)
    (ball_prediction : BallPrediction) (rnd : nat) :
  (exists seq seq' c,
      active_sequence self = Some seq /\ done seq = false
      /\ tick seq packet = (seq', Some c)
      /\ get_output vec_length steer_toward_target self packet ball_prediction rnd
         = Returns (set_active_sequence self (Some seq'), Some c))
  \/ (exists self1,
        ((self1 = self
          /\ (active_sequence self = None
              \/ exists seq, active_sequence self = Some seq /\ done seq = true))
         \/ (exists seq seq',
               active_sequence self = Some seq /\ done seq = false
               /\ tick seq packet = (seq', None)
               /\ self1 = set_active_sequence self (Some seq')))
        /\ ((eligible self packet = true
             /\ exists target,
                  find_aerial_target ball_prediction (seconds_elapsed packet)
                    (distance_of self packet) = Some target
                  /\ get_output vec_length steer_toward_target self packet
                       ball_prediction rnd
                     = choose_freestyle_aerial
                         (set_last_aerial_time self1 (seconds_elapsed packet))
                         packet target
                         (PlayerInfo.boost (my_car_of self packet)) rnd)
            \/ ((eligible self packet = false
                 \/ find_aerial_target ball_prediction (seconds_elapsed packet)
                      (distance_of self packet) = None)
                /\ get_output vec_length steer_toward_target self packet
                     ball_prediction rnd
                   = Returns
                       (ground_game_logic steer_toward_target self1
                          ball_prediction packet (my_car_of self packet)
                          (location (PlayerInfo.physics (my_car_of self packet)))
                          (ball_of packet) (distance_of self packet)
                          (speed_of self packet))))).
Proof.
  unfold get_output.
  destruct (active_sequence self) as [seq|] eqn:Ha.
  - destruct (done seq) eqn:Hd; simpl.
    + right. exists self. split; [left; split; [reflexivity|right; eauto]|].
      destruct (eligible self packet) eqn:He; [|right; split; [now left|reflexivity]].
      destruct (find_aerial_target _ _ _) as [target|] eqn:Hf.
      * left. split; [reflexivity|]. exists target. split; reflexivity.
      * right. split; [now right|reflexivity].
    + destruct (tick seq packet) as [seq' [c|]] eqn:Ht.
      * left. exists seq, seq', c. repeat split; assumption || reflexivity.
      * right. exists (set_active_sequence self (Some seq')).
        split; [right; exists seq, seq'; repeat split; assumption || reflexivity|].
        simpl. rewrite check_aerial_conditions_slot.
        destruct (eligible self packet) eqn:He;
          [|right; split; [now left|reflexivity]].
        destruct (find_aerial_target _ _ _) as [target|] eqn:Hf.
        -- left. split; [reflexivity|]. exists target. split; reflexivity.
        -- right. split; [now right|reflexivity].
  - right. exists self. split; [left; split; [reflexivity|now left]|].
    destruct (eligible self packet) eqn:He; [|right; split; [now left|reflexivity]].
    destruct (find_aerial_target _ _ _) as [target|] eqn:Hf.
    + left. split; [reflexivity|]. exists target. split; reflexivity.
    + right. split; [now right|reflexivity].
Qed.

(** Everything one call can do to the bot, in one statement: it returns
    controls, or the aerial path drew the ceiling shuffle and raised. *)
Lemma get_output_effect (self : AdvancedFreestyleBot) (packet : GameTickPacket)
    (ball_prediction : BallPrediction) (rnd : nat) :
  (get_output vec_length steer_toward_target self packet ball_prediction rnd
   = Raises AttributeError
   /\ eligible self packet = true
   /\ (forall seq, active_sequence self = Some seq ->
                   done seq = true \/ snd (tick seq packet) = None)
   /\ (exists target,
          find_aerial_target ball_prediction (seconds_elapsed packet)
            (distance_of self packet) = Some target)
   /\ chosen_trick self (PlayerInfo.boost (my_car_of self packet)) rnd
      = Returns "ceiling_shuffle"%string
   /\ 60 < PlayerInfo.boost (my_car_of self packet))
  \/
  exists self' c,
    get_output vec_length steer_toward_target self packet ball_prediction rnd
    = Returns (self', Some c)
    /\ index self' = index self
    /\ aerial_cooldown self' = aerial_cooldown self
    /\ (quick_chats self' = quick_chats self
        \/ exists q, quick_chats self' = quick_chats self ++ [q])
    /\ (active_sequence self' = active_sequence self
        \/ (exists seq, active_sequence self = Some seq
                        /\ active_sequence self' = Some (fst (tick seq packet)))
        \/ (exists seq, active_sequence self' = Some seq
                        /\ In (steps seq) (aerial_plans ++ ground_plans)
                        /\ done seq = false))
    /\ ((last_aerial_time self' = last_aerial_time self
         /\ tricks_performed self' = tricks_performed self
         /\ last_trick_type self' = last_trick_type self)
        \/ (eligible self packet = true
            /\ (forall seq, active_sequence self = Some seq ->
                            done seq = true \/ snd (tick seq packet) = None)
            /\ (exists target,
                   find_aerial_target ball_prediction (seconds_elapsed packet)
                     (distance_of self packet) = Some target)
            /\ last_aerial_time self' = seconds_elapsed packet
            /\ tricks_performed self' = S (tricks_performed self)
            /\ exists t, last_trick_type self' = Some t
                         /\ In t (candidate_tricks (last_trick_type self)
                                    (PlayerInfo.boost (my_car_of self packet))))).
Proof.
  destruct (get_output_cases self packet ball_prediction rnd)
    as [(seq & seq' & c & Ha & Hd & Ht & E)|(self1 & Hidle & Hrest)].
  - right. exists (set_active_sequence self (Some seq')), c.
    split; [exact E|]. simpl. repeat split.
    + now left.
    + right. left. exists seq. split; [exact Ha|]. now rewrite Ht.
    + left. repeat split.
  - assert (Hbook : index self1 = index self
                    /\ aerial_cooldown self1 = aerial_cooldown self
                    /\ quick_chats self1 = quick_chats self
                    /\ last_aerial_time self1 = last_aerial_time self
                    /\ tricks_performed self1 = tricks_performed self
                    /\ last_trick_type self1 = last_trick_type self).
    { destruct Hidle as [[-> _]|(seq & seq' & _ & _ & _ & ->)]; repeat split. }
    destruct Hbook as (Hi & Hc & Hq & Hl & Hn & Hk).
    assert (Hslot : active_sequence self1 = active_sequence self
                    \/ exists seq, active_sequence self = Some seq
                       /\ active_sequence self1 = Some (fst (tick seq packet))).
    { destruct Hidle as [[-> _]|(seq & seq' & Ha & _ & Ht & ->)]; [now left|].
      right. exists seq. split; [exact Ha|]. simpl. now rewrite Ht. }
    assert (Hnot : forall seq, active_sequence self = Some seq ->
                               done seq = true \/ snd (tick seq packet) = None).
    { intros seq Ha.
      destruct Hidle as [[_ [Hn0|(seq0 & Ha0 & Hd0)]]|(seq0 & seq' & Ha0 & _ & Ht & _)].
      - congruence.
      - left. congruence.
      - right. assert (seq = seq0) by congruence. subst seq0. now rewrite Ht. }
    destruct Hrest as [(He & target & Hf & E)|(_ & E)].
    + destruct (choose_freestyle_aerial_installs
                  (set_last_aerial_time self1 (seconds_elapsed packet))
                  packet target (PlayerInfo.boost (my_car_of self packet)) rnd)
        as (t & Hdraw & Hin
            & [[-> Ec]|(_ & self' & c & seq & q & Ec & Hlast & Hcount & Hchat
                        & Hact & Hplan & Hdone & _ & _ & Htime & Hcool & Hidx)]).
      { left. unfold chosen_trick in Hdraw. simpl in Hdraw, Hin.
        rewrite Hk in Hdraw, Hin.
        split; [now rewrite E|]. split; [exact He|]. split; [exact Hnot|].
        split; [now exists target|]. split; [exact Hdraw|].
        exact (ceiling_shuffle_needs_high_boost _ _ Hin). }
      simpl in Hin, Hcount, Hchat, Htime, Hcool, Hidx.
      right. exists self', c. split; [now rewrite E|].
      split; [congruence|]. split; [congruence|].
      split; [right; exists q; congruence|].
      split.
      { right. right. exists seq. split; [exact Hact|].
        split; [apply in_or_app; now left|exact Hdone]. }
      right. split; [exact He|]. split; [exact Hnot|].
      split; [now exists target|]. split; [exact Htime|].
      split; [congruence|]. exists t. split; [exact Hlast|].
      now rewrite <- Hk.
    + destruct (ground_game_logic_effect self1 ball_prediction packet
                  (my_car_of self packet)
                  (location (PlayerInfo.physics (my_car_of self packet)))
                  (ball_of packet) (distance_of self packet) (speed_of self packet))
        as (self' & c & Eg & Hl' & Hn' & Hk' & Hc' & Hi' & Hq' & Ha').
      right. exists self', c. split; [now rewrite E, Eg|].
      split; [congruence|]. split; [congruence|].
      split.
      { destruct Hq' as [Hq'|(q & Hq')]; [left|right; exists q]; congruence. }
      split.
      { destruct Ha' as [Ha'|(seq & Ha' & Hp & Hd)].
        - destruct Hslot as [Hs|(seq & Hs1 & Hs2)].
          + left. congruence.
          + right. left. exists seq. split; [exact Hs1|]. congruence.
        - right. right. exists seq. split; [exact Ha'|].
          split; [apply in_or_app; now right|exact Hd]. }
      left. repeat split; congruence.
Qed.


(** X7: a call never touches the bot's index or cooldown and sends at most
    one quick chat.  It either leaves the last aerial time, the trick counter
    and the last trick alone, or it launches an aerial: then the last aerial
    time is the packet's clock, the counter is one higher and the last trick is
    one the car's boost unlocks. *)
Theorem get_output_bookkeeping
    (self self' : AdvancedFreestyleBot) (packet : GameTickPacket)
    (ball_prediction : BallPrediction) (rnd : nat)
    (out : option SimpleControllerState) :
  get_output vec_length steer_toward_target self packet ball_prediction rnd
  = Returns (self', out) ->
  index self' = index self
  /\ aerial_cooldown self' = aerial_cooldown self
  /\ (quick_chats self' = quick_chats self
      \/ exists q, quick_chats self' = quick_chats self ++ [q])
  /\ ((last_aerial_time self' = last_aerial_time self
       /\ tricks_performed self' = tricks_performed self
       /\ last_trick_type self' = last_trick_type self)
      \/ (last_aerial_time self' = seconds_elapsed packet
          /\ tricks_performed self' = S (tricks_performed self)
          /\ exists t, last_trick_type self' = Some t
                       /\ In t (tier_union
                                  (PlayerInfo.boost (my_car_of self packet))))).
Proof.
  intro E.
  destruct (get_output_effect self packet ball_prediction rnd)
    as [(E0 & _)|(self0 & c & E0 & Hi & Hc & Hq & _ & Hd)];
    [rewrite E0 in E; discriminate|].
  rewrite E0 in E. injection E as <- _.
  split; [exact Hi|]. split; [exact Hc|]. split; [exact Hq|].
  destruct Hd as [Hd|(_ & _ & _ & Ht & Hn & t & Hl & Hin)]; [now left|].
  right. split; [exact Ht|]. split; [exact Hn|].
  exists t. split; [exact Hl|].
  unfold candidate_tricks in Hin.
  destruct (last_trick_type self) as [u|]; [|exact Hin].
  destruct (contains u _); [|exact Hin].
  now apply list_remove_incl in Hin.
Qed.

(** X8: an aerial is launched only when allowed.  If a call raises the trick
    counter, then no sequence was still yielding controls, the ball was above
    350 and a target above 400 was found, the car was between 400 and 2200
    from the ball, on its wheels, not supersonic, with more than 35 boost, and
    more than the cooldown had passed since the last aerial. *)
Theorem get_output_launches_only_when_eligible
    (self self' : AdvancedFreestyleBot) (packet : GameTickPacket)
    (ball_prediction : BallPrediction) (rnd : nat)
    (out : option SimpleControllerState) :
  get_output vec_length steer_toward_target self packet ball_prediction rnd
  = Returns (self', out) ->
  tricks_performed self' <> tricks_performed self ->
  (forall seq, active_sequence self = Some seq ->
               done seq = true \/ snd (tick seq packet) = None)
  /\ 350 < z (ball_of packet)
  /\ 400 < distance_of self packet < 2200
  /\ 35 < PlayerInfo.boost (my_car_of self packet)
  /\ aerial_cooldown self < seconds_elapsed packet - last_aerial_time self
  /\ PlayerInfo.is_super_sonic (my_car_of self packet) = false
  /\ PlayerInfo.has_wheel_contact (my_car_of self packet) = true
  /\ exists target,
       find_aerial_target ball_prediction (seconds_elapsed packet)
         (distance_of self packet) = Some target
       /\ 400 < z target.
Proof.
  intros E Hne.
  destruct (get_output_effect self packet ball_prediction rnd)
    as [(E0 & _)|(self0 & c & E0 & _ & _ & _ & _ & Hd)];
    [rewrite E0 in E; discriminate|].
  rewrite E0 in E. injection E as <- _.
  destruct Hd as [(_ & Hn & _)|(He & Hnot & (target & Hf) & _)]; [congruence|].
  apply check_aerial_conditions_true in He.
  destruct He as (H1 & H2 & H3 & H4 & H5 & H6).
  split; [exact Hnot|]. split; [exact H1|]. split; [exact H2|].
  split; [exact H3|]. split; [exact H4|]. split; [exact H5|].
  split; [exact H6|].
  exists target. split; [exact Hf|]. now apply find_aerial_target_high in Hf.
Qed.

(** X9: the slot only ever holds the bot's own plans: if it is empty or
    holds one of the eleven plans before a call, so it does after. *)
Theorem get_output_keeps_known_plan
    (self self' : AdvancedFreestyleBot) (packet : GameTickPacket)
    (ball_prediction : BallPrediction) (rnd : nat)
    (out : option SimpleControllerState) :
  holds_known_plan self ->
  get_output vec_length steer_toward_target self packet ball_prediction rnd
  = Returns (self', out) ->
  holds_known_plan self'.
Proof.
  intros Hinv E.
  destruct (get_output_effect self packet ball_prediction rnd)
    as [(E0 & _)|(self0 & c & E0 & _ & _ & _ & Hs & _)];
    [rewrite E0 in E; discriminate|].
  rewrite E0 in E. injection E as <- _.
  unfold holds_known_plan in *.
  destruct Hs as [Hs|[(seq & Ha & Hs)|(seq & Hs & Hp & _)]].
  - now rewrite Hs.
  - rewrite Hs. rewrite Ha in Hinv. now rewrite tick_steps.
  - rewrite Hs. exact Hp.
Qed.

(** X10: a running sequence holds the controller until its plan is over.
    While the clock is within the total duration of the active sequence,
    counted from its start, the call returns one of the plan's own controls and
    changes nothing but the sequence's progress. *)
Theorem get_output_busy_until_plan_ends
    (self : AdvancedFreestyleBot) (packet : GameTickPacket)
    (ball_prediction : BallPrediction) (rnd : nat)
    (seq : Sequence) (started : Q) :
  active_sequence self = Some seq ->
  done seq = false ->
  start_time seq = Some started ->
  started <= seconds_elapsed packet ->
  seconds_elapsed packet - started < total_duration (steps seq) ->
  exists c,
    get_output vec_length steer_toward_target self packet ball_prediction rnd
    = Returns
        (set_active_sequence self
           (Some {| steps := steps seq; start_time := Some started;
                    elapsed_time := seconds_elapsed packet - started;
                    done := false |}),
         Some c)
    /\ In c (map controls (steps seq)).
Proof.
  intros Ha Hd Hs Hlo Hhi.
  destruct (active_step_within (steps seq) (seconds_elapsed packet - started) 0)
    as (c & Hc & Hin); [lra|lra|].
  exists c. split; [|exact Hin].
  unfold get_output. rewrite Ha, Hd. simpl.
  unfold tick, elapsed_at. rewrite Hd, Hs, Hc. reflexivity.
Qed.

(** X11: during the cooldown no new aerial starts, whatever the world looks
    like.  Driven over any ticks whose clocks are all within the cooldown of
    the last aerial, the bot never raises, answers every tick, and ends with the
    same last aerial time, trick counter and last trick. *)
Theorem drive_no_aerial_within_cooldown
    (inputs : list tick_input) (self : AdvancedFreestyleBot) :
  Forall (fun i => seconds_elapsed (fst (fst i))
                   <= last_aerial_time self + aerial_cooldown self) inputs ->
  exists self' outs,
    drive vec_length steer_toward_target self inputs = Returns (self', outs)
    /\ List.length outs = List.length inputs
    /\ last_aerial_time self' = last_aerial_time self
    /\ tricks_performed self' = tricks_performed self
    /\ last_trick_type self' = last_trick_type self.
Proof.
  revert self. induction inputs as [|[[packet bp] rnd] rest IH];
    intros self Hall; simpl.
  - exists self, []. repeat split.
  - apply Forall_cons_iff in Hall. destruct Hall as [Hnow Hrest]. simpl in Hnow.
    destruct (get_output_effect self packet bp rnd)
      as [(_ & He & _)|(self1 & c & E & _ & Hc & _ & _ & Hd)].
    { exfalso. apply check_aerial_conditions_true in He.
      destruct He as (_ & _ & _ & Ht & _). lra. }
    rewrite E.
    destruct Hd as [(Hl & Hn & Hk)|(He & _)].
    + destruct (IH self1) as (self' & outs & Ed & Hlen & Hl' & Hn' & Hk').
      { rewrite Hl, Hc. exact Hrest. }
      rewrite Ed. exists self', (Some c :: outs).
      split; [reflexivity|]. simpl.
      split; [now rewrite Hlen|]. repeat split; congruence.
    + exfalso. apply check_aerial_conditions_true in He.
      destruct He as (_ & _ & _ & Ht & _). lra.
Qed.


(** X17: with the slot idle, eligibility and a target decide the call.
    Unless the draw is the ceiling shuffle, it launches an aerial, stamping the
    last aerial time with the packet's clock and raising the trick counter by
    one; when the draw is the ceiling shuffle it raises [AttributeError]. *)
Theorem get_output_launches_when_eligible
    (self : AdvancedFreestyleBot) (packet : GameTickPacket)
    (ball_prediction : BallPrediction) (rnd : nat) (target : Vec3) :
  (forall seq, active_sequence self = Some seq ->
               done seq = true \/ snd (tick seq packet) = None) ->
  eligible self packet = true ->
  find_aerial_target ball_prediction (seconds_elapsed packet)
    (distance_of self packet) = Some target ->
  (chosen_trick self (PlayerInfo.boost (my_car_of self packet)) rnd
   <> Returns "ceiling_shuffle"%string ->
   exists self' c seq,
     get_output vec_length steer_toward_target self packet ball_prediction rnd
     = Returns (self', Some c)
     /\ last_aerial_time self' = seconds_elapsed packet
     /\ tricks_performed self' = S (tricks_performed self)
     /\ active_sequence self' = Some seq
     /\ In (steps seq) aerial_plans
     /\ done seq = false)
  /\ (chosen_trick self (PlayerInfo.boost (my_car_of self packet)) rnd
      = Returns "ceiling_shuffle"%string ->
      get_output vec_length steer_toward_target self packet ball_prediction rnd
      = Raises AttributeError).
Proof.
  intros Hidle He Hf.
  destruct (get_output_cases self packet ball_prediction rnd)
    as [(seq & seq' & c & Ha & Hd & Ht & _)|(self1 & Hs1 & Hrest)].
  { exfalso. destruct (Hidle seq Ha) as [H|H]; [congruence|].
    rewrite Ht in H. discriminate. }
  destruct Hrest as [(_ & target' & Hf' & E)|([H|H] & _)]; [|congruence|congruence].
  assert (Hbook : tricks_performed self1 = tricks_performed self
                  /\ last_trick_type self1 = last_trick_type self).
  { destruct Hs1 as [[-> _]|(seq & seq' & _ & _ & _ & ->)]; split; reflexivity. }
  destruct Hbook as [Hn Hk].
  destruct (choose_freestyle_aerial_installs
              (set_last_aerial_time self1 (seconds_elapsed packet))
              packet target' (PlayerInfo.boost (my_car_of self packet)) rnd)
    as (t & Hdraw & _ & Hcase).
  unfold chosen_trick in Hdraw. simpl in Hdraw. rewrite Hk in Hdraw.
  fold (chosen_trick self (PlayerInfo.boost (my_car_of self packet)) rnd) in Hdraw.
  split.
  - intro Hne.
    destruct Hcase as [[-> _]|(_ & self' & c & seq & q & Ec & _ & Hcount & _
                               & Hact & Hplan & Hdone & _ & _ & Htime & _)];
      [congruence|].
    simpl in Hcount, Htime.
    exists self', c, seq. split; [now rewrite E|].
    split; [exact Htime|]. split; [congruence|].
    split; [exact Hact|]. split; [exact Hplan|exact Hdone].
  - intro Hcs. rewrite Hcs in Hdraw. injection Hdraw as <-.
    destruct Hcase as [[_ Ec]|[Hne _]]; [now rewrite E|congruence].
Qed.

(** X18: the bot answers every tick as long as the car holds 60 boost or
    less.  Driven over any such ticks, it never raises and returns a controller
    state for each one; the trick counter never goes down and rises by at most
    one per tick.  Whatever the boost, the run never fails with the
    [IndexError] of an empty choice. *)
Theorem drive_answers_every_tick
    (inputs : list tick_input) (self : AdvancedFreestyleBot) :
  (Forall (fun i => PlayerInfo.boost (game_cars (fst (fst i)) (index self)) <= 60)
     inputs ->
   exists self' outs,
     drive vec_length steer_toward_target self inputs = Returns (self', outs)
     /\ List.length outs = List.length inputs
     /\ Forall (fun out => out <> None) outs
     /\ (tricks_performed self <= tricks_performed self'
         <= tricks_performed self + List.length inputs)%nat)
  /\ drive vec_length steer_toward_target self inputs <> Raises IndexError.
Proof.
  revert self. induction inputs as [|[[packet bp] rnd] rest IH];
    intros self; simpl.
  - split; [|discriminate].
    intros _. exists self, []. repeat split; [constructor|lia|lia].
  - destruct (get_output_effect self packet bp rnd)
      as [(E & _ & _ & _ & _ & Hb)|(self1 & c & E & Hi & _ & _ & _ & Hd)];
      rewrite E.
    + split; [|discriminate].
      intro Hall. apply Forall_cons_iff in Hall. destruct Hall as [Hle _].
      simpl in Hle. exfalso. lra.
    + destruct (IH self1) as [IHlow IHerr]. split.
      * intro Hall. apply Forall_cons_iff in Hall. destruct Hall as [_ Hrest].
        rewrite <- Hi in Hrest.
        destruct (IHlow Hrest) as (self' & outs & Ed & Hlen & Hout & Hlo & Hhi).
        rewrite Ed. exists self', (Some c :: outs).
        split; [reflexivity|]. simpl. split; [now rewrite Hlen|].
        split; [constructor; [discriminate|exact Hout]|].
        destruct Hd as [(_ & Hn & _)|(_ & _ & _ & _ & Hn & _)]; lia.
      * destruct (drive vec_length steer_toward_target self1 rest)
          as [[self' outs]|e]; [discriminate|].
        intro H. apply IHerr. exact H.
Qed.

End ControllerInvariants.

(** ** The aerial helpers *)

Section BoostEstimate.

Variable fl : Q -> Q.

(** X12: [calculate_boost_usage] is monotone, whatever the rounding, as long
    as the rounding keeps the order and sends zero to zero: a yes stays a yes
    for any shorter distance and any larger boost, and with no boost at all the
    answer is no for every distance that is not negative. *)
Theorem calculate_boost_usage_monotone :
  (forall a b, a <= b -> fl a <= fl b) ->
  fl 0 == 0 ->
  (forall distance current_boost distance' current_boost',
      calculate_boost_usage fl distance current_boost = true ->
      distance' <= distance -> current_boost <= current_boost' ->
      calculate_boost_usage fl distance' current_boost' = true)
  /\ (forall distance, 0 <= distance ->
                       calculate_boost_usage fl distance 0 = false).
Proof.
  intros Hmono Hzero.
  assert (Hest : forall d d', d' <= d ->
            fl (fl (d' / 100) * 10) <= fl (fl (d / 100) * 10)).
  { intros d d' Hle. apply Hmono.
    assert (H1 : fl (d' / 100) <= fl (d / 100)).
    { apply Hmono. unfold Qdiv. apply Qmult_le_compat_r; [exact Hle|].
      vm_compute. discriminate. }
    lra. }
  split.
  - intros d b d' b' Hyes Hd Hb. unfold calculate_boost_usage in *.
    apply Qltb_lt in Hyes. apply Qltb_lt.
    pose proof (Hest d d' Hd). lra.
  - intros d Hd. unfold calculate_boost_usage. apply Qltb_ge.
    pose proof (Hest d 0 Hd) as H.
    assert (Ha : fl (0 / 100) <= fl 0) by (apply Hmono; vm_compute; discriminate).
    assert (Hb : fl 0 <= fl (0 / 100)) by (apply Hmono; vm_compute; discriminate).
    assert (Hc : fl (fl (0 / 100) * 10) <= fl 0) by (apply Hmono; lra).
    assert (He : fl 0 <= fl (fl (0 / 100) * 10)) by (apply Hmono; lra).
    lra.
Qed.

End BoostEstimate.

Section AerialHelperFacts.

Variable vec_dist : Vec3 -> Vec3 -> Q.

(** X13: [should_aerial] is the conjunction of its four checks, each bound
    included: the ball at or above the minimum height, the car at or within
    the maximum distance, at least the minimum boost, and not supersonic. *)
Theorem should_aerial_iff (car : PlayerInfo.t) (ball_location ball_velocity : Vec3)
    (min_height max_distance min_boost : Q) :
  should_aerial vec_dist car ball_location ball_velocity
    min_height max_distance min_boost = true
  <-> min_height <= z ball_location
      /\ vec_dist (location (PlayerInfo.physics car)) ball_location <= max_distance
      /\ min_boost <= PlayerInfo.boost car
      /\ PlayerInfo.is_super_sonic car = false.
Proof.
  unfold should_aerial.
  destruct (Qltb (z ball_location) min_height) eqn:E1.
  { apply Qltb_lt in E1. split; [discriminate|]. intros (H & _). lra. }
  apply Qltb_ge in E1.
  destruct (Qltb max_distance _) eqn:E2.
  { apply Qltb_lt in E2. split; [discriminate|]. intros (_ & H & _). lra. }
  apply Qltb_ge in E2.
  destruct (Qltb (PlayerInfo.boost car) min_boost) eqn:E3.
  { apply Qltb_lt in E3. split; [discriminate|]. intros (_ & _ & H & _). lra. }
  apply Qltb_ge in E3.
  destruct (PlayerInfo.is_super_sonic car).
  - split; [discriminate|]. intros (_ & _ & _ & H). discriminate.
  - tauto.
Qed.

(** X14: the bot's own check is the stricter one: whenever
    [check_aerial_conditions] accepts a ball height and a distance that are
    the ball's and the car's, [should_aerial] with its defaults accepts too. *)
Theorem check_aerial_conditions_implies_should_aerial
    (self : AdvancedFreestyleBot) (car : PlayerInfo.t)
    (ball_location ball_velocity : Vec3) (distance time_since_aerial : Q) :
  distance == vec_dist (location (PlayerInfo.physics car)) ball_location ->
  check_aerial_conditions self car ball_location (z ball_location) distance
    time_since_aerial = true ->
  should_aerial_default vec_dist car ball_location ball_velocity = true.
Proof.
  intros Hd Hc. apply check_aerial_conditions_true in Hc.
  destruct Hc as (Hh & [_ Hfar] & Hb & _ & Hs & _).
  unfold should_aerial_default, should_aerial.
  assert (E1 : Qltb (z ball_location) 300 = false) by (apply Qltb_ge; lra).
  assert (E2 : Qltb 2500 (vec_dist (location (PlayerInfo.physics car))
                            ball_location) = false)
    by (apply Qltb_ge; lra).
  assert (E3 : Qltb (PlayerInfo.boost car) 25 = false) by (apply Qltb_ge; lra).
  rewrite E1, E2, E3, Hs. reflexivity.
Qed.

Section TimeToReach.

Variable vec_length : Vec3 -> Q.

(** X15: [time_to_reach] never divides by zero: a speed below 100 is
    replaced by 1000 before the division.  For a distance that is not negative
    the estimate lies between 0 and a hundredth of the distance. *)
Theorem time_to_reach_defined
    (car_location target_location car_velocity : Vec3) :
  0 <= vec_dist car_location target_location ->
  exists t,
    time_to_reach vec_length vec_dist car_location target_location car_velocity
    = Some t
    /\ 0 <= t
    /\ t <= vec_dist car_location target_location / 100
    /\ (vec_length car_velocity < 100 ->
        t == vec_dist car_location target_location / 1000).
Proof.
  intro Hnn. unfold time_to_reach, py_div.
  set (d := vec_dist car_location target_location) in *.
  destruct (Qltb (vec_length car_velocity) 100) eqn:E.
  - assert (Ez : Qeq_bool 1000 0 = false) by reflexivity.
    rewrite Ez. exists (d / 1000). split; [reflexivity|].
    assert (H1 : d / 1000 == d * (1 # 1000)) by field.
    assert (H2 : d / 100 == d * (1 # 100)) by field.
    split; [|split]; [rewrite H1; nra|rewrite H1, H2; nra|reflexivity].
  - apply Qltb_ge in E. set (s := vec_length car_velocity) in *.
    assert (Ez : Qeq_bool s 0 = false).
    { destruct (Qeq_bool s 0) eqn:Eq; [|reflexivity].
      apply Qeq_bool_iff in Eq. lra. }
    rewrite Ez. exists (d / s). split; [reflexivity|].
    assert (Hs : 0 < s) by lra.
    split; [|split].
    + apply Qle_shift_div_l; [exact Hs|lra].
    + apply Qle_shift_div_r; [exact Hs|].
      assert (H2 : d / 100 * s == d * (s / 100)) by field.
      rewrite H2. assert (1 <= s / 100) by (apply Qle_shift_div_l; lra). nra.
    + intro Hlt. lra.
Qed.

End TimeToReach.

End AerialHelperFacts.

(** * The properties at sample inputs *)

(** The worked scenario of the sequence: A at 0.05 s, B at 0.15 s, nothing at
    0.35 s and after. *)
Example two_steps_scenario :
  snd (run (new_sequence two_steps)
         [packet_at 0; packet_at 0.05; packet_at 0.15; packet_at 0.35; packet_at 0.4])
  = [Some step_A; Some step_A; Some step_B; None; None].
Proof. reflexivity. Qed.

(** The worked aerial scenario: ball at 500, 1000 away, 70 boost, grounded,
    5 s since the last aerial. *)
Example aerial_scenario :
  check_aerial_conditions (init 0) (grounded_car 70)
    {| x := 0; y := 1000; z := 500 |} 500 1000 5 = true.
Proof. reflexivity. Qed.

Lemma tick_done_is_terminal_witness :
  let seq := fst (tick (new_sequence two_steps) (packet_at 0)) in
  let packet := packet_at 0.35 in
  let later := [packet_at 0.4; packet_at 0.5] in
  snd (tick seq packet) = None
  /\ done (fst (tick seq packet)) = true
  /\ Forall (fun out => out = None) (snd (run (fst (tick seq packet)) later))
  /\ done (fst (run (fst (tick seq packet)) later)) = true
  /\ Forall (fun p =>
       active_step (steps (fst (tick seq packet)))
         (elapsed_at (fst (tick seq packet)) (seconds_elapsed p)) 0 = None)
       later.
Proof.
  intros seq packet later.
  apply (tick_done_is_terminal seq packet later).
  - repeat constructor; vm_compute; discriminate.
  - vm_compute. discriminate.
  - repeat constructor; vm_compute; discriminate.
Defined.

Lemma check_aerial_conditions_conjunction_witness :
  check_aerial_conditions (init 0) (grounded_car 20)
    {| x := 0; y := 1000; z := 500 |} 500 1000 5 = false.
Proof.
  apply (check_aerial_conditions_conjunction (init 0) (grounded_car 20)
           {| x := 0; y := 1000; z := 500 |} 500 1000 5).
  reflexivity.
Defined.

Lemma check_aerial_conditions_boost_threshold_witness :
  check_aerial_conditions (init 0) (grounded_car 38)
    {| x := 0; y := 1000; z := 500 |} 500 1000 5 = true
  /\ check_aerial_conditions (init 0) (grounded_car 35)
       {| x := 0; y := 1000; z := 500 |} 500 1000 5 = false.
Proof.
  split.
  - apply (check_aerial_conditions_boost_threshold (init 0) (grounded_car 38)
             {| x := 0; y := 1000; z := 500 |} 500 1000 5);
      try reflexivity.
    split; reflexivity.
  - apply (check_aerial_conditions_boost_threshold (init 0) (grounded_car 35)
             {| x := 0; y := 1000; z := 500 |} 500 1000 5).
    reflexivity.
Defined.

Lemma candidate_tricks_never_empty_witness :
  candidate_tricks (Some "flip_reset"%string) 70 <> []
  /\ (exists t,
        random_choice 6 (candidate_tricks (Some "flip_reset"%string) 70) = Returns t
        /\ In t (candidate_tricks (Some "flip_reset"%string) 70))
  /\ choose_freestyle_aerial (record_trick (init 0) "flip_reset") (packet_at 9)
       {| x := 0; y := 1000; z := 500 |} 70 6
     <> Raises IndexError.
Proof.
  destruct (candidate_tricks_never_empty (Some "flip_reset"%string) 70)
    as (Hne & Hdraw & Hchoose).
  split; [exact Hne|]. split; [exact (Hdraw 6%nat)|].
  apply Hchoose. reflexivity.
Defined.

Lemma find_slice_at_time_closest_after_witness :
  (three_slices = [] -> find_slice_at_time three_slices 5.2 = None)
  /\ (forall l, last_slice three_slices = Some l -> game_seconds l < 5.2 ->
        find_slice_at_time three_slices 5.2 = None)
  /\ (forall l, last_slice three_slices = Some l -> 5.2 <= game_seconds l ->
        exists s,
          find_slice_at_time three_slices 5.2 = Some s
          /\ In s three_slices
          /\ 5.2 <= game_seconds s
          /\ forall s', In s' three_slices -> 5.2 <= game_seconds s' ->
                        game_seconds s <= game_seconds s').
Proof.
  apply (find_slice_at_time_closest_after three_slices 5.2).
  unfold three_slices, time_le.
  repeat constructor; vm_compute; discriminate.
Defined.

Lemma get_output_continues_active_sequence_witness :
  exists self',
    get_output taxicab_length steer_straight bot_mid_aerial (packet_at 5.2)
      three_slices 0
    = Returns (self', Some (controller_state [Jump true; Boost true; Pitch (-0.4)]))
    /\ last_aerial_time self' = 5
    /\ tricks_performed self' = 1%nat
    /\ last_trick_type self' = Some "spinning_aerial"%string.
Proof.
  destruct (get_output_continues_active_sequence taxicab_length steer_straight
              bot_mid_aerial (packet_at 5.2) three_slices 0
              (fst (tick (new_sequence spinning_aerial_steps) (packet_at 5)))
              (fst (tick (fst (tick (new_sequence spinning_aerial_steps)
                                 (packet_at 5))) (packet_at 5.2)))
              (controller_state [Jump true; Boost true; Pitch (-0.4)]))
    as (self' & Hout & Ht & Hn & Hl & _).
  - reflexivity.
  - reflexivity.
  - vm_compute. reflexivity.
  - exists self'. repeat split; assumption.
Defined.

Lemma ground_game_logic_speed_flip_at_low_speed_witness :
  ground_game_logic steer_straight (init 0) three_slices (packet_at 5)
    (grounded_car 70) {| x := 0; y := 0; z := 17 |}
    {| x := 0; y := 1800; z := 93 |} 1800 150
  = speed_flip (init 0) (packet_at 5).
Proof.
  apply (ground_game_logic_speed_flip_at_low_speed steer_straight (init 0)
           three_slices (packet_at 5) (grounded_car 70)
           {| x := 0; y := 0; z := 17 |} {| x := 0; y := 1800; z := 93 |}
           1800 150); reflexivity.
Defined.

Lemma ground_game_logic_standstill_drives_witness :
  exists controls,
    ground_game_logic steer_straight (init 0) three_slices (packet_at 5)
      (grounded_car 70) {| x := 0; y := 0; z := 17 |}
      {| x := 0; y := 1800; z := 93 |} 1800 0 = (init 0, Some controls)
    /\ throttle controls = 1.0
    /\ boost controls = true.
Proof.
  destruct (ground_game_logic_standstill_drives steer_straight (init 0)
              three_slices (packet_at 5) (grounded_car 70)
              {| x := 0; y := 0; z := 17 |} {| x := 0; y := 1800; z := 93 |}
              1800 0)
    as (controls & Hout & _ & _ & Ht & Hb & _).
  - reflexivity.
  - reflexivity.
  - reflexivity.
  - exists controls. repeat split; assumption.
Defined.

(** ** The further properties at sample inputs *)

Lemma round_down_milli_mono (a b : Q) :
  a <= b -> round_down_milli a <= round_down_milli b.
Proof.
  intro Hle. unfold round_down_milli, Qdiv.
  apply Qmult_le_compat_r; [|vm_compute; discriminate].
  rewrite <- Zle_Qle. apply Qfloor_resp_le.
  apply Qmult_le_compat_r; [exact Hle|vm_compute; discriminate].
Qed.

Lemma chosen_trick_within_unlocked_tiers_witness :
  (30 <= 40 -> "spinning_aerial"%string = "basic_aerial"%string
               \/ "spinning_aerial"%string = "spinning_aerial"%string)
  /\ (30 <= 60 ->
      In "spinning_aerial"%string
         ["air_roll_shot"; "musty_flick"; "flip_reset";
          "basic_aerial"; "spinning_aerial"]%string).
Proof.
  apply (chosen_trick_within_unlocked_tiers (init 0) 30 1 "spinning_aerial").
  reflexivity.
Defined.

Lemma chosen_trick_differs_unless_listed_twice_witness :
  chosen_trick bot_mid_aerial 50 3 <> Returns "spinning_aerial"%string.
Proof.
  apply (chosen_trick_differs_unless_listed_twice bot_mid_aerial 50 3
           "spinning_aerial").
  - reflexivity.
  - left. discriminate.
Defined.

Lemma ground_game_logic_flips_only_grounded_and_far_witness :
  exists c,
    ground_game_logic steer_straight (init 0) three_slices (packet_at 5)
      (grounded_car 70) {| x := 0; y := 0; z := 17 |}
      {| x := 0; y := 500; z := 93 |} 500 150 = (init 0, Some c)
    /\ throttle c = 1.0 /\ jump c = false.
Proof.
  destruct (ground_game_logic_flips_only_grounded_and_far steer_straight (init 0)
              three_slices (packet_at 5) (grounded_car 70)
              {| x := 0; y := 0; z := 17 |} {| x := 0; y := 500; z := 93 |}
              500 150)
    as (c & E & Ht & Hj & _).
  - right. vm_compute. discriminate.
  - exists c. repeat split; assumption.
Defined.

Lemma ground_game_logic_diagonal_flip_band_witness :
  exists seq,
    ground_game_logic steer_straight (init 0) three_slices (packet_at 5)
      (grounded_car 70) {| x := 0; y := 0; z := 17 |}
      {| x := 0; y := 1000; z := 93 |} 1000 1000
    = (set_active_sequence (init 0) (Some seq), Some (controller_state [Jump true]))
    /\ steps seq = diagonal_flip_steps
    /\ done seq = false
    /\ start_time seq = Some 5.
Proof.
  apply (ground_game_logic_diagonal_flip_band steer_straight (init 0)
           three_slices (packet_at 5) (grounded_car 70)
           {| x := 0; y := 0; z := 17 |} {| x := 0; y := 1000; z := 93 |}
           1000 1000).
  - split; reflexivity.
  - reflexivity.
  - reflexivity.
Defined.

Lemma ground_game_logic_speed_flip_at_high_speed_witness :
  exists seq,
    ground_game_logic steer_straight (init 0) three_slices (packet_at 5)
      (grounded_car 70) {| x := 0; y := 0; z := 17 |}
      {| x := 0; y := 1500; z := 93 |} 1500 1300
    = (set_active_sequence (send_quick_chat (init 0) Reactions_Siiiick) (Some seq),
       Some (controller_state [Jump true; Boost true; Pitch 0.2]))
    /\ steps seq = speed_flip_steps
    /\ done seq = false
    /\ start_time seq = Some 5.
Proof.
  apply (ground_game_logic_speed_flip_at_high_speed steer_straight (init 0)
           three_slices (packet_at 5) (grounded_car 70)
           {| x := 0; y := 0; z := 17 |} {| x := 0; y := 1500; z := 93 |}
           1500 1300).
  - split; reflexivity.
  - reflexivity.
  - reflexivity.
Defined.

Lemma get_output_bookkeeping_witness :
  match get_output taxicab_length steer_straight (init 0) (packet_at 5)
          long_prediction 0 with
  | Returns (self', _) =>
      index self' = 0%nat /\ aerial_cooldown self' = 3.0
  | Raises _ => False
  end.
Proof.
  destruct (get_output taxicab_length steer_straight (init 0) (packet_at 5)
              long_prediction 0) as [[self' out]|e] eqn:E.
  - destruct (get_output_bookkeeping taxicab_length steer_straight (init 0) self'
                (packet_at 5) long_prediction 0 out E) as (Hi & Hc & _).
    split; assumption.
  - vm_compute in E. discriminate.
Defined.

Lemma get_output_launches_only_when_eligible_witness :
  match get_output taxicab_length steer_straight (init 0) (packet_at 5)
          long_prediction 0 with
  | Returns (self', _) =>
      tricks_performed self' = 1%nat
      /\ 35 < PlayerInfo.boost (game_cars (packet_at 5) 0)
      /\ PlayerInfo.has_wheel_contact (game_cars (packet_at 5) 0) = true
  | Raises _ => False
  end.
Proof.
  destruct (get_output taxicab_length steer_straight (init 0) (packet_at 5)
              long_prediction 0) as [[self' out]|e] eqn:E.
  - assert (Hn : tricks_performed self' = 1%nat).
    { vm_compute in E. injection E as <- _. reflexivity. }
    assert (Hne : tricks_performed self' <> tricks_performed (init 0)).
    { rewrite Hn. discriminate. }
    destruct (get_output_launches_only_when_eligible taxicab_length
                steer_straight (init 0) self' (packet_at 5) long_prediction 0
                out E Hne) as (_ & _ & _ & Hb & _ & _ & Hw & _).
    split; [exact Hn|]. split; [exact Hb|exact Hw].
  - vm_compute in E. discriminate.
Defined.

Lemma get_output_keeps_known_plan_witness :
  match get_output taxicab_length steer_straight bot_mid_aerial (packet_at 5.2)
          three_slices 0 with
  | Returns (self', _) => holds_known_plan self'
  | Raises _ => False
  end.
Proof.
  destruct (get_output taxicab_length steer_straight bot_mid_aerial
              (packet_at 5.2) three_slices 0) as [[self' out]|e] eqn:E.
  - apply (get_output_keeps_known_plan taxicab_length steer_straight
             bot_mid_aerial self' (packet_at 5.2) three_slices 0 out);
      [|exact E].
    unfold holds_known_plan. simpl. do 4 right. left. reflexivity.
  - vm_compute in E. discriminate.
Defined.

Lemma get_output_busy_until_plan_ends_witness :
  exists c,
    get_output taxicab_length steer_straight bot_mid_aerial (packet_at 5.2)
      three_slices 0
    = Returns
        (set_active_sequence bot_mid_aerial
           (Some {| steps := spinning_aerial_steps; start_time := Some 5;
                    elapsed_time := 5.2 - 5; done := false |}),
         Some c)
    /\ In c (map controls spinning_aerial_steps).
Proof.
  apply (get_output_busy_until_plan_ends taxicab_length steer_straight
           bot_mid_aerial (packet_at 5.2) three_slices 0
           (fst (tick (new_sequence spinning_aerial_steps) (packet_at 5))) 5).
  - reflexivity.
  - reflexivity.
  - reflexivity.
  - vm_compute. discriminate.
  - vm_compute. reflexivity.
Defined.

Lemma drive_no_aerial_within_cooldown_witness :
  exists self' outs,
    drive taxicab_length steer_straight (init 0)
      [(packet_at 1, long_prediction, 0%nat); (packet_at 2.5, long_prediction, 4%nat)]
    = Returns (self', outs)
    /\ List.length outs = 2%nat
    /\ last_aerial_time self' = 0
    /\ tricks_performed self' = 0%nat
    /\ last_trick_type self' = None.
Proof.
  apply (drive_no_aerial_within_cooldown taxicab_length steer_straight
           [(packet_at 1, long_prediction, 0%nat);
            (packet_at 2.5, long_prediction, 4%nat)] (init 0)).
  repeat constructor; vm_compute; discriminate.
Defined.

Lemma check_aerial_conditions_implies_should_aerial_witness :
  should_aerial_default taxicab_dist (grounded_car 70)
    {| x := 0; y := 1000; z := 500 |} origin = true.
Proof.
  apply (check_aerial_conditions_implies_should_aerial taxicab_dist (init 0)
           (grounded_car 70) {| x := 0; y := 1000; z := 500 |} origin 1483 5).
  - vm_compute. reflexivity.
  - reflexivity.
Defined.

Lemma time_to_reach_defined_witness :
  exists t,
    time_to_reach taxicab_length taxicab_dist {| x := 0; y := 0; z := 17 |}
      {| x := 0; y := 1000; z := 500 |} origin = Some t
    /\ 0 <= t.
Proof.
  destruct (time_to_reach_defined taxicab_dist taxicab_length
              {| x := 0; y := 0; z := 17 |} {| x := 0; y := 1000; z := 500 |}
              origin) as (t & E & Hnn & _).
  - vm_compute. discriminate.
  - exists t. split; assumption.
Defined.

Lemma get_output_launches_when_eligible_witness :
  (exists self' c seq,
      get_output taxicab_length steer_straight (init 0) (packet_at 5)
        long_prediction 0
      = Returns (self', Some c)
      /\ last_aerial_time self' = 5
      /\ tricks_performed self' = 1%nat
      /\ active_sequence self' = Some seq
      /\ In (steps seq) aerial_plans
      /\ done seq = false)
  /\ get_output taxicab_length steer_straight (init 0) (packet_at 5)
       long_prediction 1
     = Raises AttributeError.
Proof.
  split.
  - apply (get_output_launches_when_eligible taxicab_length steer_straight
             (init 0) (packet_at 5) long_prediction 0
             {| x := 0; y := 1000; z := 450 |}).
    + intros seq H. discriminate H.
    + reflexivity.
    + vm_compute. reflexivity.
    + vm_compute. discriminate.
  - apply (get_output_launches_when_eligible taxicab_length steer_straight
             (init 0) (packet_at 5) long_prediction 1
             {| x := 0; y := 1000; z := 450 |}).
    + intros seq H. discriminate H.
    + reflexivity.
    + vm_compute. reflexivity.
    + reflexivity.
Defined.

Lemma known_plans_well_formed_witness :
  (4 <= List.length speed_flip_steps <= 11)%nat
  /\ Forall (fun s => 0.05 <= duration s <= 0.8
                      /\ -1 <= pitch (controls s) <= 1
                      /\ -1 <= yaw (controls s) <= 1
                      /\ -1 <= roll (controls s) <= 1) speed_flip_steps
  /\ total_duration speed_flip_steps <= 1.85
  /\ total_duration speed_flip_steps < aerial_cooldown (init 0).
Proof.
  apply (known_plans_well_formed speed_flip_steps).
  simpl. do 10 right. left. reflexivity.
Defined.


Lemma drive_answers_every_tick_witness :
  exists self' outs,
    drive taxicab_length steer_straight (init 0)
      [(packet_with_boost 50 5, long_prediction, 1%nat);
       (packet_with_boost 50 5.1, long_prediction, 2%nat)]
    = Returns (self', outs)
    /\ List.length outs = 2%nat
    /\ Forall (fun out => out <> None) outs
    /\ (0 <= tricks_performed self' <= 0 + 2)%nat.
Proof.
  apply (drive_answers_every_tick taxicab_length steer_straight
           [(packet_with_boost 50 5, long_prediction, 1%nat);
            (packet_with_boost 50 5.1, long_prediction, 2%nat)] (init 0)).
  repeat constructor; vm_compute; discriminate.
Defined.

Lemma calculate_boost_usage_monotone_witness :
  calculate_boost_usage round_down_milli 250 40 = true
  /\ calculate_boost_usage round_down_milli 120 0 = false.
Proof.
  destruct (calculate_boost_usage_monotone round_down_milli)
    as [Hmono Hzero].
  - exact round_down_milli_mono.
  - reflexivity.
  - split.
    + apply (Hmono 300 35 250 40); [reflexivity| |]; vm_compute; discriminate.
    + apply (Hzero 120). vm_compute. discriminate.
Defined.
